(** * geocoder-osm-google: the Geocoder facade and its two provider adapters

    A shallow embedding of [src/geocoding.ts].

    - JavaScript strings are Rocq [string]s, read as the UTF-8 bytes of
      well-formed text.  Every string primitive used by the source
      ([endsWith], [slice], [trim], [replace], [encodeURIComponent]) only
      cuts at ASCII characters or at whole white-space characters, so the
      byte reading and the UTF-16 reading of the source agree.
    - JavaScript numbers are primitive binary64 floats.  They are carried
      around and never computed with; [parseFloat] and the number-to-string
      conversion belong to the host.
    - The asynchronous methods are computations in a small monad that
      threads the list of observable events (provider requests and console
      output) and ends in a returned value or a thrown one.  A promise that
      rejects is a computation that throws. *)

From Stdlib Require Import String Ascii ZArith NArith Lia List.
From Stdlib Require Import Floats.PrimFloat DecimalString.
From stdpp Require Import base option list gmap strings.

Set Warnings "-inexact-float".
Open Scope string_scope.

(** ** JavaScript string primitives *)

Module JS.

(** [String.prototype.endsWith(searchString)], end position omitted. *)
Definition endsWith (s searchString : string) : bool :=
  let len := String.length s in
  let searchLength := String.length searchString in
  if (len <? searchLength)%nat then false
  else String.eqb (substring (len - searchLength) searchLength s) searchString.

(** [String.prototype.slice(start, end)] with integer arguments. *)
Definition slice (s : string) (start end_ : Z) : string :=
  let len := Z.of_nat (String.length s) in
  let from := if (start <? 0)%Z then Z.max (len + start) 0 else Z.min start len in
  let to := if (end_ <? 0)%Z then Z.max (len + end_) 0 else Z.min end_ len in
  substring (Z.to_nat from) (Z.to_nat (Z.max (to - from) 0)) s.

(** A string is truthy unless it is empty. *)
Definition truthy (s : string) : bool := negb (String.eqb s "").

(** [a || b] where [a] and [b] are strings or [undefined]. *)
Definition or (a b : option string) : option string :=
  match a with
  | Some s => if truthy s then Some s else b
  | None => b
  end.

(** [a || ''] where [a] is a string or [undefined]. *)
Definition or_empty (a : option string) : string :=
  match a with
  | Some s => if truthy s then s else ""
  | None => ""
  end.

(** The white-space and line-terminator characters that [trim] removes,
    each as its UTF-8 bytes: U+0009..U+000D, U+0020, U+00A0, U+1680,
    U+2000..U+200A, U+2028, U+2029, U+202F, U+205F, U+3000, U+FEFF. *)
Definition whiteSpace : list (list N) :=
  ([ [9]; [10]; [11]; [12]; [13]; [32];
     [194; 160];
     [225; 154; 128];
     [226; 128; 128]; [226; 128; 129]; [226; 128; 130]; [226; 128; 131];
     [226; 128; 132]; [226; 128; 133]; [226; 128; 134]; [226; 128; 135];
     [226; 128; 136]; [226; 128; 137]; [226; 128; 138];
     [226; 128; 168]; [226; 128; 169]; [226; 128; 175];
     [226; 129; 159];
     [227; 128; 128];
     [239; 187; 191] ])%N.

Fixpoint stripPrefix (p bs : list N) : option (list N) :=
  match p, bs with
  | [], _ => Some bs
  | x :: p', y :: bs' => if (x =? y)%N then stripPrefix p' bs' else None
  | _ :: _, [] => None
  end.

(** Drops one leading character of [table] from [bs], if there is one. *)
Fixpoint stripOne (table : list (list N)) (bs : list N) : option (list N) :=
  match table with
  | [] => None
  | w :: table' =>
      match stripPrefix w bs with
      | Some rest => Some rest
      | None => stripOne table' bs
      end
  end.

Fixpoint stripAll (fuel : nat) (table : list (list N)) (bs : list N) : list N :=
  match fuel with
  | O => bs
  | S fuel' =>
      match stripOne table bs with
      | Some rest => stripAll fuel' table rest
      | None => bs
      end
  end.

Definition bytes (s : string) : list N := map N_of_ascii (list_ascii_of_string s).
Definition unbytes (bs : list N) : string := string_of_list_ascii (map ascii_of_N bs).

Definition trimStartBytes (bs : list N) : list N :=
  stripAll (length bs) whiteSpace bs.

(** The same scan from the right end: UTF-8 is self-synchronising, so a
    white-space character ends the text exactly when its reversed bytes
    start the reversed text. *)
Definition trimEndBytes (bs : list N) : list N :=
  rev (stripAll (length bs) (map (@rev N) whiteSpace) (rev bs)).

(** [String.prototype.trim()]. *)
Definition trim (s : string) : string :=
  unbytes (trimEndBytes (trimStartBytes (bytes s))).

(** [s.replace(/'/g, '')]: every apostrophe removed. *)
Fixpoint removeApostrophes (s : string) : string :=
  match s with
  | EmptyString => EmptyString
  | String c rest =>
      if Ascii.eqb c "'"%char then removeApostrophes rest
      else String c (removeApostrophes rest)
  end.

(** Characters [encodeURIComponent] leaves alone:
    [A-Z a-z 0-9 - _ . ! ~ * ' ( )]. *)
Definition uriUnreserved (c : ascii) : bool :=
  let n := N_of_ascii c in
  ((65 <=? n) && (n <=? 90) || (97 <=? n) && (n <=? 122) || (48 <=? n) && (n <=? 57)
   || (n =? 45) || (n =? 95) || (n =? 46) || (n =? 33) || (n =? 126)
   || (n =? 42) || (n =? 39) || (n =? 40) || (n =? 41))%N.

Definition hexDigit (n : N) : ascii :=
  ascii_of_N (if (n <? 10)%N then 48 + n else 55 + n)%N.

(** [encodeURIComponent] on well-formed text: every other byte of the
    UTF-8 encoding becomes [%XX], upper-case. *)
Fixpoint encodeURIComponent (s : string) : string :=
  match s with
  | EmptyString => EmptyString
  | String c rest =>
      if uriUnreserved c then String c (encodeURIComponent rest)
      else
        let n := N_of_ascii c in
        String "%"%char
          (String (hexDigit (n / 16)%N)
             (String (hexDigit (n mod 16)%N) (encodeURIComponent rest)))
  end.

(** Decimal rendering of a non-negative integer (an HTTP status). *)
Definition integerToString (n : N) : string :=
  NilEmpty.string_of_uint (N.to_uint n).

End JS.

(** ** Data model *)

(** [GeoLocation]: a coordinate pair. *)
Record GeoLocation := { lat : float; long : float }.

(** The Google Maps client's types ([google.maps.*]), as far as the source
    reads them. *)
Inductive GeocoderStatus :=
| OK | ZERO_RESULTS | OVER_QUERY_LIMIT | REQUEST_DENIED
| INVALID_REQUEST | UNKNOWN_ERROR | ERROR.

(** The enumeration's members are the strings of the same name. *)
Definition statusToString (st : GeocoderStatus) : string :=
  match st with
  | OK => "OK"
  | ZERO_RESULTS => "ZERO_RESULTS"
  | OVER_QUERY_LIMIT => "OVER_QUERY_LIMIT"
  | REQUEST_DENIED => "REQUEST_DENIED"
  | INVALID_REQUEST => "INVALID_REQUEST"
  | UNKNOWN_ERROR => "UNKNOWN_ERROR"
  | ERROR => "ERROR"
  end.

Definition isOK (st : GeocoderStatus) : bool :=
  match st with OK => true | _ => false end.

(** [google.maps.LatLng]: read through its accessors [lat()] and [lng()]. *)
Record LatLng := { latlng_lat : float; latlng_lng : float }.

Record GeocoderAddressComponent :=
  { long_name : string; short_name : string; types : list string }.

Record GeocoderResult :=
  { address_components : list GeocoderAddressComponent;
    formatted_address : string;
    geometry_location : LatLng;
    place_id : string }.

Inductive GeocoderRequest :=
| RequestAddress (address : string)
| RequestLocation (location_lat location_lng : float).

(** [GeocodeResponse]: what the client hands to its callback. *)
Record GeocodeResponse :=
  { results : option (list GeocoderResult); status : GeocoderStatus }.

(** The JSON payloads of the Nominatim service, in the shapes the service
    documents: [null], an array of flat objects (the search hits), or an
    object with string members and an optional nested [address] object. *)
Record Place :=
  { place_members : gmap string string;
    place_address : option (gmap string string) }.

Inductive Body :=
| BNull
| BArray (items : list (gmap string string))
| BObject (place : Place).

(** An element read out of a payload by [payload[0]]. *)
Inductive Element :=
| ElemObject (members : gmap string string)
| ElemString (s : string).

Inductive RawResponse :=
| RawGoogle (r : GeocoderResult)
| RawItem (e : option Element)
| RawReverse (b : Body).

(** [GeocodeResult]: the canonical, provider-independent result. *)
Record GeocodeResult :=
  { nation : string;
    province : string;
    county : string;
    town : string;
    borough : string;
    street : string;
    zip : string;
    location : GeoLocation;
    rawResponse : RawResponse }.

(** Thrown values: an [Error] (or subclass) instance with its message, or
    anything else. *)
Inductive thrown :=
| ThrownError (message : string)
| ThrownOther.

Inductive outcome (A : Type) :=
| Return (a : A)
| Throw (e : thrown).
Arguments Return {A} a.
Arguments Throw {A} e.

(** [fetch]'s [Response], as far as the source reads it. *)
Record Response :=
  { ok : bool;
    response_status : N;
    json : outcome Body }.

Inductive nullish := JsUndefined | JsNull.

(** The host: the JavaScript engine's number conversions and error texts,
    the pre-loaded Google Maps client, and the network behind [fetch]. *)
Record Host :=
  { parseFloat : string -> float;
    numberToString : float -> string;
    (** message of the TypeError raised by reading property [prop] of
        [undefined] or [null] *)
    cannotReadMessage : nullish -> string -> string;
    (** [google.maps.Geocoder.prototype.geocode]: the values the callback
        receives, or what the call throws *)
    googleGeocode : GeocoderRequest -> outcome GeocodeResponse;
    fetch : string -> outcome Response }.

(** Observable events, in the order they happen. *)
Inductive logDetail :=
| NoDetail
| StatusDetail (st : GeocoderStatus)
| ThrownDetail (e : thrown).

Inductive event :=
| EvGoogleGeocode (request : GeocoderRequest)
| EvFetch (url : string)
| EvConsoleLog (arg : option GeocoderResult)
| EvConsoleError (message : string) (detail : logDetail).

(** ** The monad of asynchronous methods *)

Definition M (A : Type) : Type := list event -> list event * outcome A.

Definition ret {A} (a : A) : M A := fun tr => (tr, Return a).
Definition throw {A} (e : thrown) : M A := fun tr => (tr, Throw e).
Definition bind {A B} (m : M A) (k : A -> M B) : M B :=
  fun tr =>
    match m tr with
    | (tr', Return a) => k a tr'
    | (tr', Throw e) => (tr', Throw e)
    end.
Definition emit (ev : event) : M unit := fun tr => ((tr ++ [ev])%list, Return tt).
Definition liftOutcome {A} (o : outcome A) : M A := fun tr => (tr, o).

(** [try { m } catch (error) { handler error }] *)
Definition tryCatch {A} (m : M A) (handler : thrown -> M A) : M A :=
  fun tr =>
    match m tr with
    | (tr', Return a) => (tr', Return a)
    | (tr', Throw e) => handler e tr'
    end.

Notation "'let*' x ':=' m 'in' k" := (bind m (fun x => k))
  (at level 10, x name, m at level 100, k at level 200).
Notation "'let*' '_' ':=' m 'in' k" := (bind m (fun _ => k))
  (at level 10, m at level 100, k at level 200).

(** Runs a method from an empty event history. *)
Definition run {A} (m : M A) : list event * outcome A := m [].

(** ** geocoding.ts *)

Definition COUNTY_SUFFIX : string := " County".

Definition removeCountySuffix (county : string) : string :=
  if JS.endsWith county COUNTY_SUFFIX
  then JS.slice county 0 (- Z.of_nat (String.length COUNTY_SUFFIX))
  else county.

Definition logError (message : string) (error : logDetail) : M unit :=
  emit (EvConsoleError message error).

(** [error instanceof Error ? error.message : 'Unknown error'] *)
Definition errorMessage (error : thrown) : string :=
  match error with
  | ThrownError message => message
  | ThrownOther => "Unknown error"
  end.

(** The [Geocoder] instance: its two private fields. *)
Record Geocoder :=
  { this_address : option string;
    this_location : option GeoLocation }.

(** The constructor's argument: a string, or an object whose [lat] and
    [long] properties may be [undefined]. *)
Record LocationObject :=
  { obj_lat : option float; obj_long : option float }.

Inductive AddressOrLocation :=
| OfString (s : string)
| OfObject (o : LocationObject).

Definition new_Geocoder (addressOrLocation : AddressOrLocation) : outcome Geocoder :=
  match addressOrLocation with
  | OfString s => Return {| this_address := Some s; this_location := None |}
  | OfObject o =>
      match obj_lat o, obj_long o with
      | Some la, Some lo =>
          Return {| this_address := None;
                    this_location := Some {| lat := la; long := lo |} |}
      | _, _ =>
          Throw (ThrownError "Invalid location object: must contain lat and long properties")
      end
  end.

Inductive Provider := google | nominatim.

Definition providerToString (provider : Provider) : string :=
  match provider with
  | google => "google"
  | nominatim => "nominatim"
  end.

(** The reducer of [geocodeWithGoogle]: every type tag of a component is
    bound to the component's long name, later components overwriting
    earlier ones. *)
Definition addComponent (acc : gmap string string) (comp : GeocoderAddressComponent)
  : gmap string string :=
  fold_left (fun acc type => <[type := long_name comp]> acc) (types comp) acc.

Definition componentsOf (result : GeocoderResult) : gmap string string :=
  fold_left addComponent (address_components result) ∅.

(** The object literal returned by [geocodeWithGoogle] on success. *)
Definition googleResult (first : GeocoderResult) : GeocodeResult :=
  let location := geometry_location first in
  let components := componentsOf first in
  {| nation := JS.or_empty (components !! "country");
     province := JS.or_empty (components !! "administrative_area_level_1");
     county := removeCountySuffix (JS.or_empty (components !! "administrative_area_level_2"));
     town := JS.or_empty (components !! "locality");
     borough := JS.or_empty (components !! "sublocality_level_1");
     street := JS.or_empty (components !! "street_number") ++ " "
               ++ JS.or_empty (components !! "route");
     zip := JS.or_empty (components !! "postal_code");
     location := {| lat := latlng_lat location; long := latlng_lng location |};
     rawResponse := RawGoogle first |}.

(** Property reads on Nominatim payloads. *)
Definition bodyTruthy (b : Body) : bool :=
  match b with BNull => false | BArray _ | BObject _ => true end.

(** [b.length === 0]: only an empty array has the number 0 as its length;
    a member of an object is a string, never the number 0. *)
Definition lengthIsZero (b : Body) : bool :=
  match b with BArray [] => true | _ => false end.

(** [b[0]] for a truthy [b]. *)
Definition item0 (b : Body) : option Element :=
  match b with
  | BNull => None
  | BArray items => ElemObject <$> items !! 0%nat
  | BObject place => ElemString <$> place_members place !! "0"
  end.

(** [e.prop] for an element: a member of an object; strings have no
    [lat] or [lon] property. *)
Definition elementGet (e : Element) (prop : string) : option string :=
  match e with
  | ElemObject members => members !! prop
  | ElemString _ => None
  end.

(** [b.prop] for a payload that is not [null]. *)
Definition bodyGet (b : Body) (prop : string) : option string :=
  match b with
  | BObject place => place_members place !! prop
  | BNull | BArray _ => None
  end.

(** [b.address] for a payload that is not [null]. *)
Definition bodyAddress (b : Body) : option (gmap string string) :=
  match b with
  | BObject place => place_address place
  | BNull | BArray _ => None
  end.

(** The object literal returned by [geocodeWithNominatim] on success. *)
Definition nominatimResult (parse : option string -> float)
    (forwardData reverseData : Body) (address : gmap string string) : GeocodeResult :=
  {| nation := JS.or_empty (address !! "country");
     province := JS.or_empty (address !! "state");
     county := removeCountySuffix (JS.or_empty (address !! "county"));
     town := JS.or_empty (JS.or (address !! "town") (address !! "city"));
     borough := JS.or_empty (address !! "borough");
     street := JS.trim (JS.or_empty (address !! "house_number") ++ " "
                        ++ JS.or_empty (address !! "road"));
     zip := JS.or_empty (address !! "postcode");
     location := {| lat := parse (bodyGet reverseData "lat");
                    long := parse (bodyGet reverseData "lon") |};
     rawResponse := if bodyTruthy forwardData then RawItem (item0 forwardData)
                    else RawReverse reverseData |}.

Section Methods.

Variable host : Host.

(** [parseFloat(v)] where [v] is a string or [undefined]; [undefined]
    is first converted to the string "undefined". *)
Definition parseFloatOf (v : option string) : float :=
  parseFloat host (default "undefined" v).

Definition promisifyGeocode (request : GeocoderRequest) : M GeocodeResponse :=
  let* _ := emit (EvGoogleGeocode request) in
  liftOutcome (googleGeocode host request).

Definition fetchUrl (url : string) : M Response :=
  let* _ := emit (EvFetch url) in
  liftOutcome (fetch host url).

Definition searchUrl (sanitizedAddress : string) : string :=
  "https://nominatim.openstreetmap.org/search?format=json&q="
  ++ JS.encodeURIComponent sanitizedAddress.

Definition reverseUrl (lat_ long_ : float) : string :=
  "https://nominatim.openstreetmap.org/reverse?format=json&lat="
  ++ numberToString host lat_ ++ "&lon=" ++ numberToString host long_.

(** [base.prop] where [base] may be [undefined]. *)
Definition readElement (base : option Element) (prop : string) : M (option string) :=
  match base with
  | None => throw (ThrownError (cannotReadMessage host JsUndefined prop))
  | Some e => ret (elementGet e prop)
  end.

(** [reverseData.address] *)
Definition readAddress (reverseData : Body) : M (option (gmap string string)) :=
  match reverseData with
  | BNull => throw (ThrownError (cannotReadMessage host JsNull "address"))
  | BArray _ | BObject _ => ret (bodyAddress reverseData)
  end.

Definition geocodeWithGoogle (this : Geocoder) (isReverse : bool)
  : M (GeocodeResult + string) :=
  (* const geocoder = new google.maps.Geocoder(): the global [google.maps]
     is loaded, as the module requires of its environment, so constructing
     the client has no observable effect *)
  let request : string + GeocoderRequest :=
    if isReverse then
      match this_location this with
      | None => inl "No location coordinates provided for reverse geocoding"
      | Some loc => inr (RequestLocation (lat loc) (long loc))
      end
    else
      match this_address this with
      | None => inl "No address provided for forward geocoding"
      | Some a => if JS.truthy a then inr (RequestAddress a) else inl "No address provided for forward geocoding"
      end in
  match request with
  | inl message => ret (inr message)
  | inr request =>
      let* response := promisifyGeocode request in
      match isOK (status response), results response with
      | true, Some results =>
          let* _ := emit (EvConsoleLog (results !! 0%nat)) in
          match results !! 0%nat with
          | None => throw (ThrownError (cannotReadMessage host JsUndefined "geometry"))
          | Some first => ret (inl (googleResult first))
          end
      | _, _ =>
          let operation := (if isReverse then "Reverse" else "Forward") in
          let* _ := logError ("Google " ++ operation ++ " Geocoding failed:")
                      (StatusDetail (status response)) in
          ret (inr ("Google " ++ operation ++ " Geocoding failed: "
                    ++ statusToString (status response)))
      end
  end.

(** The [try] block of [geocodeWithNominatim]. *)
Definition nominatimAttempt (this : Geocoder) (isReverse : bool)
  : M (GeocodeResult + string) :=
    (let* established :=
       if isReverse then
         match this_location this with
         | None => ret (inl "No location coordinates provided for reverse geocoding")
         | Some loc => ret (inr (BNull, lat loc, long loc))
         end
       else
         match this_address this with
         | None => ret (inl "No address provided for forward geocoding")
         | Some a =>
             if negb (JS.truthy a) then ret (inl "No address provided for forward geocoding")
             else
               let sanitizedAddress := JS.removeApostrophes a in
               let nominatimUrl := searchUrl sanitizedAddress in
               let* response := fetchUrl nominatimUrl in
               if negb (ok response) then
                 throw (ThrownError ("Forward geocoding failed: "
                                     ++ JS.integerToString (response_status response)))
               else
                 let* forwardData := liftOutcome (json response) in
                 if negb (bodyTruthy forwardData) || lengthIsZero forwardData then
                   let* _ := logError "Nominatim Forward Geocoding failed: No results found"
                               NoDetail in
                   ret (inl "Nominatim Forward Geocoding failed: No results found")
                 else
                   let* latText := readElement (item0 forwardData) "lat" in
                   let* lonText := readElement (item0 forwardData) "lon" in
                   ret (inr (forwardData, parseFloatOf latText, parseFloatOf lonText))
         end in
     match established with
     | inl message => ret (inr message)
     | inr (forwardData, lat_, long_) =>
         (* Always perform reverse geocoding to get address details *)
         let* reverseResponse := fetchUrl (reverseUrl lat_ long_) in
         if negb (ok reverseResponse) then
           throw (ThrownError ("Reverse geocoding failed: "
                               ++ JS.integerToString (response_status reverseResponse)))
         else
           let* reverseData := liftOutcome (json reverseResponse) in
           let* addressProp := readAddress reverseData in
           let address := default ∅ addressProp in
           ret (inl (nominatimResult parseFloatOf forwardData reverseData address))
     end).

Definition geocodeWithNominatim (this : Geocoder) (isReverse : bool)
  : M (GeocodeResult + string) :=
  tryCatch
    (nominatimAttempt this isReverse)
    (fun error =>
       let operation := (if isReverse then "Reverse" else "Forward") in
       let* _ := logError ("Nominatim " ++ operation ++ " Geocoding error:")
                   (ThrownDetail error) in
       ret (inr ("Nominatim " ++ operation ++ " Geocoding error: " ++ errorMessage error))).

(** [geocode(provider = 'nominatim')]; [None] is the omitted argument. *)
Definition geocode (this : Geocoder) (provider : option Provider)
  : M (GeocodeResult + string) :=
  let provider := default nominatim provider in
  tryCatch
    (match provider with
     | google => geocodeWithGoogle this false
     | nominatim => geocodeWithNominatim this false
     end)
    (fun error =>
       let* _ := logError ("Forward Geocoding error with " ++ providerToString provider)
                   (ThrownDetail error) in
       ret (inr ("Forward Geocoding error with " ++ providerToString provider
                 ++ ": " ++ errorMessage error))).

(** [reverseGeocode(provider = 'nominatim')] *)
Definition reverseGeocode (this : Geocoder) (provider : option Provider)
  : M (GeocodeResult + string) :=
  let provider := default nominatim provider in
  tryCatch
    (match provider with
     | google => geocodeWithGoogle this true
     | nominatim => geocodeWithNominatim this true
     end)
    (fun error =>
       let* _ := logError ("Reverse Geocoding error with " ++ providerToString provider)
                   (ThrownDetail error) in
       ret (inr ("Reverse Geocoding error with " ++ providerToString provider
                 ++ ": " ++ errorMessage error))).

End Methods.

(** ** Vocabulary of the statements *)

(** The request [geocodeWithGoogle] builds: the held coordinate pair in
    reverse mode (its [long] renamed [lng]), the held non-empty address in
    forward mode. *)
Inductive requested (this : Geocoder) : bool -> GeocoderRequest -> Prop :=
| RequestedReverse (loc : GeoLocation) :
    this_location this = Some loc ->
    requested this true (RequestLocation (lat loc) (long loc))
| RequestedForward (a : string) :
    this_address this = Some a ->
    JS.truthy a = true ->
    requested this false (RequestAddress a).

(** The coordinate pair [geocodeWithNominatim] establishes, with the value
    of its variable [forwardData]: the held pair in reverse mode, where
    [forwardData] is [null]; in forward mode the parsed [lat] and [lon] of
    the first element of a 2xx search answer that is neither [null] nor
    empty. *)
Inductive established (host : Host) (this : Geocoder)
  : bool -> Body -> float -> float -> Prop :=
| EstablishedInput (loc : GeoLocation) :
    this_location this = Some loc ->
    established host this true BNull (lat loc) (long loc)
| EstablishedHit (a : string) (response : Response) (forwardData : Body) (e : Element) :
    this_address this = Some a ->
    JS.truthy a = true ->
    fetch host (searchUrl (JS.removeApostrophes a)) = Return response ->
    ok response = true ->
    json response = Return forwardData ->
    item0 forwardData = Some e ->
    established host this false forwardData
      (parseFloatOf host (elementGet e "lat"))
      (parseFloatOf host (elementGet e "lon")).

(** Kinds of events. *)
Definition isFetch (ev : event) : bool :=
  match ev with EvFetch _ => true | _ => false end.

Definition isGoogleRequest (ev : event) : bool :=
  match ev with EvGoogleGeocode _ => true | _ => false end.

Definition isConsoleError (ev : event) : bool :=
  match ev with EvConsoleError _ _ => true | _ => false end.

(** The characters of a string. *)
Definition chars (s : string) : list ascii := list_ascii_of_string s.

(** Whether a string starts, or ends, with one of the characters that
    [trim] removes. *)
Definition startsWithWhiteSpace (s : string) : bool :=
  match JS.stripOne JS.whiteSpace (JS.bytes s) with Some _ => true | None => false end.

Definition endsWithWhiteSpace (s : string) : bool :=
  match JS.stripOne (map (@rev N) JS.whiteSpace) (rev (JS.bytes s)) with
  | Some _ => true
  | None => false
  end.

(** Characters that would end or split the [q] parameter of a query
    string, and the apostrophe the source removes. *)
Definition queryDelimiters : list ascii :=
  ["'"; " "; "&"; "="; "#"; "?"; "/"; "+"]%char.

(** ** Test doubles

    Concrete hosts on which the methods are evaluated: an engine with
    V8's error texts and a two-entry number table, a Google Maps client and
    a network that answer as each scenario says. *)

Module Mock.

Definition cannotRead (base : nullish) (prop : string) : string :=
  "Cannot read properties of "
  ++ match base with JsUndefined => "undefined" | JsNull => "null" end
  ++ " (reading '" ++ prop ++ "')".

Definition tableParseFloat (s : string) : float :=
  if String.eqb s "38.8976763" then 38.8976763%float
  else if String.eqb s "-77.0365298" then (-77.0365298)%float
  else nan.

Definition tableNumberToString (x : float) : string :=
  if PrimFloat.eqb x 38.8976763%float then "38.8976763"
  else if PrimFloat.eqb x (-77.0365298)%float then "-77.0365298"
  else "NaN".

Definition host (client : GeocoderRequest -> outcome GeocodeResponse)
    (network : string -> outcome Response) : Host :=
  {| parseFloat := tableParseFloat;
     numberToString := tableNumberToString;
     cannotReadMessage := cannotRead;
     googleGeocode := client;
     fetch := network |}.

(** Collaborators that must not be reached. *)
Definition noClient (_ : GeocoderRequest) : outcome GeocodeResponse :=
  Throw (ThrownError "Geocoding service unavailable").
Definition noNetwork (_ : string) : outcome Response :=
  Throw (ThrownError "Failed to fetch").

Definition whiteHouse : GeoLocation :=
  {| lat := 38.8976763%float; long := (-77.0365298)%float |}.

Definition atAddress (a : string) : Geocoder :=
  {| this_address := Some a; this_location := None |}.
Definition atLocation (loc : GeoLocation) : Geocoder :=
  {| this_address := None; this_location := Some loc |}.

Definition component (name : string) (tags : list string) : GeocoderAddressComponent :=
  {| long_name := name; short_name := name; types := tags |}.

Definition resultWith (components : list GeocoderAddressComponent) : GeocoderResult :=
  {| address_components := components;
     formatted_address := "";
     geometry_location := {| latlng_lat := 38.8976763%float;
                             latlng_lng := (-77.0365298)%float |};
     place_id := "ChIJ" |}.

(** A client that answers every request with [results] and [st]. *)
Definition answering (rs : option (list GeocoderResult)) (st : GeocoderStatus)
  : GeocoderRequest -> outcome GeocodeResponse :=
  fun _ => Return {| results := rs; status := st |}.

(** A 200 response carrying [body]. *)
Definition okResponse (body : Body) : Response :=
  {| ok := true; response_status := 200; json := Return body |}.

(** A network whose [search] endpoint answers [searchBody] and whose
    [reverse] endpoint answers [reverseBody]. *)
Definition service (searchBody reverseBody : Body) : string -> outcome Response :=
  fun url =>
    if String.prefix "https://nominatim.openstreetmap.org/search?" url
    then Return (okResponse searchBody)
    else Return (okResponse reverseBody).

Definition hit : gmap string string :=
  <["lat" := "38.8976763"]>
    (<["lon" := "-77.0365298"]>
       (<["display_name" := "White House, Washington, United States"]> ∅)).

Definition reversePlace : Place :=
  {| place_members := <["lat" := "38.8976763"]> (<["lon" := "-77.0365298"]> ∅);
     place_address :=
       Some (<["house_number" := "1600"]>
               (<["road" := "Pennsylvania Avenue NW"]>
                  (<["city" := "Washington"]>
                     (<["state" := "District of Columbia"]>
                        (<["postcode" := "20500"]>
                           (<["country" := "United States"]> ∅)))))) |}.

(** The scenario of the round trip through Nominatim. *)
Definition nominatimHost : Host :=
  host noClient (service (BArray [hit]) (BObject reversePlace)).

Definition reverseAddress : gmap string string :=
  default ∅ (place_address reversePlace).

Definition nominatimFields (raw : RawResponse) : GeocodeResult :=
  {| nation := "United States";
     province := "District of Columbia";
     county := "";
     town := "Washington";
     borough := "";
     street := "1600 Pennsylvania Avenue NW";
     zip := "20500";
     location := whiteHouse;
     rawResponse := raw |}.

(** A result list with a second, different match. *)
Definition otherResult : GeocoderResult :=
  {| address_components := [component "Elsewhere" ["locality"]];
     formatted_address := "Elsewhere";
     geometry_location := {| latlng_lat := 0%float; latlng_lng := 0%float |};
     place_id := "other" |}.

(** Components in which the tag [locality] occurs twice. *)
Definition retagged : GeocoderResult :=
  resultWith [component "Georgetown" ["locality"];
              component "Washington" ["locality"; "political"];
              component "United States" ["country"; "political"]].

(** A network that answers every request with HTTP 503. *)
Definition unavailable (_ : string) : outcome Response :=
  Return {| ok := false; response_status := 503; json := Return BNull |}.

End Mock.

(** ** Results about the string primitives *)

Section StringFacts.

Lemma length_append (a b : string) :
  String.length (a ++ b) = (String.length a + String.length b)%nat.
Proof. induction a as [|c a IH]; simpl; [reflexivity | now rewrite IH]. Qed.

Lemma substring_zero_zero (s : string) : substring 0 0 s = "".
Proof. destruct s; reflexivity. Qed.

Lemma substring_prefix (a b : string) :
  substring 0 (String.length a) (a ++ b) = a.
Proof.
  induction a as [|c a IH]; simpl.
  - apply substring_zero_zero.
  - now rewrite IH.
Qed.

Lemma substring_whole (b : string) : substring 0 (String.length b) b = b.
Proof. induction b as [|c b IH]; simpl; [reflexivity | now rewrite IH]. Qed.

Lemma substring_suffix (a b : string) :
  substring (String.length a) (String.length b) (a ++ b) = b.
Proof.
  induction a as [|c a IH]; simpl.
  - apply substring_whole.
  - exact IH.
Qed.

Lemma length_substring_zero (k : nat) (s : string) :
  String.length (substring 0 k s) = Nat.min k (String.length s).
Proof.
  revert s; induction k as [|k IH]; intros [|c s]; simpl; try reflexivity.
  now rewrite IH.
Qed.

(** A string that ends with [suffix] is some prefix followed by it. *)
Lemma endsWith_true (s suffix : string) :
  JS.endsWith s suffix = true ->
  (String.length suffix <= String.length s)%nat /\
  substring (String.length s - String.length suffix) (String.length suffix) s = suffix.
Proof.
  unfold JS.endsWith.
  destruct (Nat.ltb_spec (String.length s) (String.length suffix)) as [Hlt|Hge];
    [discriminate|].
  intros H; apply String.eqb_eq in H. split; [exact Hge | exact H].
Qed.

Lemma endsWith_append (s suffix : string) : JS.endsWith (s ++ suffix) suffix = true.
Proof.
  unfold JS.endsWith. rewrite length_append.
  destruct (Nat.ltb_spec (String.length s + String.length suffix) (String.length suffix))
    as [Hlt|Hge]; [lia|].
  replace (String.length s + String.length suffix - String.length suffix)%nat
    with (String.length s) by lia.
  rewrite substring_suffix. apply String.eqb_refl.
Qed.

(** [s.slice(0, -n)] keeps the first [length s - n] bytes. *)
Lemma slice_drop_last (s : string) (n : nat) :
  (0 < n)%nat ->
  JS.slice s 0 (- Z.of_nat n) = substring 0 (String.length s - n) s.
Proof.
  intros Hn. unfold JS.slice. cbv zeta.
  destruct (Z.ltb_spec 0 0) as [H0|_]; [lia|].
  destruct (Z.ltb_spec (- Z.of_nat n) 0) as [_|Hzero]; [|lia].
  f_equal.
  - lia.
  - lia.
Qed.

(** [trim]'s scans never stop for lack of fuel: every removed character
    has at least one byte, so after [length bs] rounds nothing removable is
    left at either end. *)
Lemma stripPrefix_length (p bs rest : list N) :
  JS.stripPrefix p bs = Some rest -> length bs = (length p + length rest)%nat.
Proof.
  revert bs; induction p as [|x p IH]; intros [|y bs] H; simpl in H; try discriminate.
  - now injection H as <-.
  - now injection H as <-.
  - destruct (x =? y)%N; [|discriminate]. apply IH in H. simpl. lia.
Qed.

Lemma stripOne_shorter (table : list (list N)) (bs rest : list N) :
  Forall (fun w => w <> []) table ->
  JS.stripOne table bs = Some rest -> (length rest < length bs)%nat.
Proof.
  induction 1 as [|w table Hw _ IH]; simpl; [discriminate|].
  destruct (JS.stripPrefix w bs) as [rest'|] eqn:E; [|exact IH].
  intros H; injection H as ->. apply stripPrefix_length in E.
  destruct w; [contradiction|]. simpl in E. lia.
Qed.

Lemma stripAll_exhausts (table : list (list N)) (fuel : nat) (bs : list N) :
  Forall (fun w => w <> []) table ->
  (length bs <= fuel)%nat ->
  JS.stripOne table (JS.stripAll fuel table bs) = None.
Proof.
  intros Ht. revert bs; induction fuel as [|fuel IH]; intros bs Hlen; simpl.
  - destruct bs; [|simpl in Hlen; lia].
    clear Hlen. induction Ht as [|w table Hw _ IHt]; simpl; [reflexivity|].
    destruct w; [contradiction|]. exact IHt.
  - destruct (JS.stripOne table bs) as [rest|] eqn:E; [|exact E].
    apply IH. apply stripOne_shorter in E; [lia | exact Ht].
Qed.

Lemma whiteSpace_nonempty : Forall (fun w : list N => w <> []) JS.whiteSpace.
Proof. unfold JS.whiteSpace. repeat constructor; discriminate. Qed.

Lemma whiteSpace_rev_nonempty : Forall (fun w : list N => w <> []) (map (@rev N) JS.whiteSpace).
Proof. unfold JS.whiteSpace. simpl. repeat constructor; discriminate. Qed.

Lemma trimStartBytes_done (bs : list N) :
  JS.stripOne JS.whiteSpace (JS.trimStartBytes bs) = None.
Proof. apply stripAll_exhausts; [exact whiteSpace_nonempty | lia]. Qed.

Lemma trimEndBytes_done (bs : list N) :
  JS.stripOne (map (@rev N) JS.whiteSpace) (rev (JS.trimEndBytes bs)) = None.
Proof.
  unfold JS.trimEndBytes. rewrite rev_involutive.
  apply stripAll_exhausts; [exact whiteSpace_rev_nonempty|]. rewrite length_rev. lia.
Qed.

Lemma unbytes_bytes (s : string) : JS.unbytes (JS.bytes s) = s.
Proof.
  unfold JS.unbytes, JS.bytes. rewrite map_map.
  rewrite (map_ext _ id); [|intros a; apply ascii_N_embedding].
  rewrite map_id. apply string_of_list_ascii_of_string.
Qed.

End StringFacts.

(** ** County-suffix stripping *)

Lemma removeCountySuffix_append (s : string) :
  removeCountySuffix (s ++ " County") = s.
Proof.
  unfold removeCountySuffix, COUNTY_SUFFIX.
  rewrite endsWith_append.
  rewrite slice_drop_last by (simpl; lia).
  rewrite length_append.
  replace (String.length s + String.length " County" - String.length " County")%nat
    with (String.length s) by lia.
  apply substring_prefix.
Qed.

Lemma removeCountySuffix_unchanged (s : string) :
  JS.endsWith s " County" = false -> removeCountySuffix s = s.
Proof. intros H. unfold removeCountySuffix, COUNTY_SUFFIX. now rewrite H. Qed.

Lemma removeCountySuffix_shortens (s : string) :
  JS.endsWith s " County" = true ->
  String.length (removeCountySuffix s) = (String.length s - 7)%nat /\
  (7 <= String.length s)%nat.
Proof.
  intros H. unfold removeCountySuffix, COUNTY_SUFFIX. rewrite H.
  apply endsWith_true in H as [Hlen _]. simpl in Hlen.
  rewrite slice_drop_last by (simpl; lia).
  rewrite length_substring_zero. simpl. split; lia.
Qed.

(** Stripping twice differs from stripping once exactly when the stripped
    string still ends with the suffix. *)
Lemma removeCountySuffix_twice (s : string) :
  removeCountySuffix (removeCountySuffix s) = removeCountySuffix s
  <-> JS.endsWith (removeCountySuffix s) " County" = false.
Proof.
  split.
  - intros Heq.
    destruct (JS.endsWith (removeCountySuffix s) " County") eqn:E; [|reflexivity].
    apply removeCountySuffix_shortens in E as [Hlen Hge].
    rewrite Heq in Hlen. lia.
  - apply removeCountySuffix_unchanged.
Qed.

(** C6, counterexample: a name that carries the suffix twice loses one
    copy at each application, so the second application still changes it. *)
Lemma removeCountySuffix_not_idempotent :
  removeCountySuffix (removeCountySuffix "Loudoun County County")
  <> removeCountySuffix "Loudoun County County".
Proof. vm_compute. discriminate. Qed.

(** C6 (amended): [removeCountySuffix] removes exactly one trailing
    " County" and leaves every other string unchanged; applying it twice
    equals applying it once exactly when the once-stripped string no longer
    ends in " County"; "Loudoun County" becomes "Loudoun" and "Loudoun"
    stays "Loudoun"; the Google and the Nominatim normalizer both compute
    their county field with this one function. *)
Theorem removeCountySuffix_strips_one_suffix :
  (forall s, removeCountySuffix (s ++ " County") = s) /\
  (forall s, JS.endsWith s " County" = false -> removeCountySuffix s = s) /\
  (forall s, removeCountySuffix (removeCountySuffix s) = removeCountySuffix s
             <-> JS.endsWith (removeCountySuffix s) " County" = false) /\
  removeCountySuffix "Loudoun County" = "Loudoun" /\
  removeCountySuffix "Loudoun" = "Loudoun" /\
  (forall first,
      county (googleResult first)
      = removeCountySuffix
          (JS.or_empty (componentsOf first !! "administrative_area_level_2"))) /\
  (forall parse forwardData reverseData address,
      county (nominatimResult parse forwardData reverseData address)
      = removeCountySuffix (JS.or_empty (address !! "county"))).
Proof.
  split; [exact removeCountySuffix_append|].
  split; [exact removeCountySuffix_unchanged|].
  split; [exact removeCountySuffix_twice|].
  repeat split.
Qed.

Lemma removeCountySuffix_strips_one_suffix_witness :
  removeCountySuffix (removeCountySuffix "Loudoun County")
  = removeCountySuffix "Loudoun County"
  /\ removeCountySuffix "Fairfax" = "Fairfax".
Proof.
  split.
  - apply (proj1 (proj2 (proj2 removeCountySuffix_strips_one_suffix))).
    reflexivity.
  - apply (proj1 (proj2 removeCountySuffix_strips_one_suffix)).
    reflexivity.
Defined.

(** ** The constructor *)

(** C3: a coordinate object that has both [lat] and [long] always
    constructs, holding exactly that pair; an object that lacks [lat] or
    lacks [long] always makes the constructor throw, with the exact message
    "Invalid location object: must contain lat and long properties". *)
Theorem constructor_validates_location :
  (forall la lo,
      new_Geocoder (OfObject {| obj_lat := Some la; obj_long := Some lo |})
      = Return {| this_address := None;
                  this_location := Some {| lat := la; long := lo |} |}) /\
  (forall o,
      obj_lat o = None \/ obj_long o = None ->
      new_Geocoder (OfObject o)
      = Throw (ThrownError "Invalid location object: must contain lat and long properties")).
Proof.
  split.
  - reflexivity.
  - intros [[la|] [lo|]] [H|H]; simpl in H; try discriminate; reflexivity.
Qed.

Lemma constructor_validates_location_witness :
  new_Geocoder (OfObject {| obj_lat := Some 38.8976763%float; obj_long := None |})
  = Throw (ThrownError "Invalid location object: must contain lat and long properties").
Proof.
  apply (proj2 constructor_validates_location). right. reflexivity.
Defined.

Lemma new_Geocoder_string (a : string) (g : Geocoder) :
  new_Geocoder (OfString a) = Return g ->
  this_address g = Some a /\ this_location g = None.
Proof. simpl. intros H. injection H as <-. split; reflexivity. Qed.

Lemma new_Geocoder_object (o : LocationObject) (g : Geocoder) :
  new_Geocoder (OfObject o) = Return g ->
  this_address g = None /\ exists loc, this_location g = Some loc.
Proof.
  simpl. destruct (obj_lat o), (obj_long o); try discriminate.
  intros H. injection H as <-. split; [reflexivity | eexists; reflexivity].
Qed.

(** ** Mode mismatch *)

Lemma reverse_without_location (host : Host) (this : Geocoder) (provider : option Provider) :
  this_location this = None ->
  run (reverseGeocode host this provider)
  = ([], Return (inr "No location coordinates provided for reverse geocoding")).
Proof.
  intros H. unfold run, reverseGeocode, tryCatch.
  destruct (default nominatim provider).
  - unfold geocodeWithGoogle. rewrite H. reflexivity.
  - unfold geocodeWithNominatim, nominatimAttempt, tryCatch, bind. rewrite H. reflexivity.
Qed.

Lemma forward_without_address (host : Host) (this : Geocoder) (provider : option Provider) :
  this_address this = None \/ this_address this = Some "" ->
  run (geocode host this provider)
  = ([], Return (inr "No address provided for forward geocoding")).
Proof.
  intros H. unfold run, geocode, tryCatch.
  destruct (default nominatim provider).
  - unfold geocodeWithGoogle. destruct H as [-> | ->]; reflexivity.
  - unfold geocodeWithNominatim, nominatimAttempt, tryCatch, bind.
    destruct H as [-> | ->]; reflexivity.
Qed.

(** C4: on a Geocoder constructed from an address string, [reverseGeocode]
    with any provider returns the string "No location coordinates provided
    for reverse geocoding"; on a Geocoder constructed from a location
    object, [geocode] with any provider returns the string "No address
    provided for forward geocoding"; both return rather than throw, and
    their event history is empty: no provider request is made. *)
Theorem mode_mismatch_returns_message :
  forall (host : Host) (provider : option Provider),
    (forall a g,
        new_Geocoder (OfString a) = Return g ->
        run (reverseGeocode host g provider)
        = ([], Return (inr "No location coordinates provided for reverse geocoding"))) /\
    (forall o g,
        new_Geocoder (OfObject o) = Return g ->
        run (geocode host g provider)
        = ([], Return (inr "No address provided for forward geocoding"))).
Proof.
  intros host provider. split.
  - intros a g Hg. apply new_Geocoder_string in Hg as [_ Hloc].
    now apply reverse_without_location.
  - intros o g Hg. apply new_Geocoder_object in Hg as [Haddr _].
    apply forward_without_address. now left.
Qed.

Lemma mode_mismatch_returns_message_witness :
  run (reverseGeocode (Mock.host Mock.noClient Mock.noNetwork)
         (Mock.atAddress "1600 Pennsylvania Avenue, Washington DC") (Some google))
  = ([], Return (inr "No location coordinates provided for reverse geocoding"))
  /\ run (geocode (Mock.host Mock.noClient Mock.noNetwork)
            (Mock.atLocation Mock.whiteHouse) None)
     = ([], Return (inr "No address provided for forward geocoding")).
Proof.
  split.
  - apply (proj1 (mode_mismatch_returns_message _ _)
             "1600 Pennsylvania Avenue, Washington DC").
    reflexivity.
  - apply (proj2 (mode_mismatch_returns_message _ _)
             {| obj_lat := Some 38.8976763%float; obj_long := Some (-77.0365298)%float |}).
    reflexivity.
Defined.

(** C10: the empty address string constructs a Geocoder, and on that
    instance [geocode], with any provider, makes no request and returns
    "No address provided for forward geocoding". *)
Theorem empty_address_is_mode_mismatch :
  exists g,
    new_Geocoder (OfString "") = Return g /\
    forall (host : Host) (provider : option Provider),
      run (geocode host g provider)
      = ([], Return (inr "No address provided for forward geocoding")).
Proof.
  eexists. split; [reflexivity|].
  intros host provider. apply forward_without_address. now right.
Qed.

(** ** Running the methods *)

Ltac evaluate :=
  cbn -[searchUrl reverseUrl String.append JS.integerToString JS.trim removeCountySuffix] in *.

(** Case analysis on everything a hypothesis about a finished run
    branches on. *)
Ltac split_cases :=
  repeat (evaluate;
          match goal with
          | H : (_, _) = (_, _) |- _ => injection H as ? ?; subst
          | H : Return _ = Return _ |- _ => injection H as ?; subst
          | H : inl _ = inl _ |- _ => injection H as ?; subst
          | H : Return _ = Throw _ |- _ => discriminate H
          | H : Throw _ = Return _ |- _ => discriminate H
          | H : inl _ = inr _ |- _ => discriminate H
          | H : inr _ = inl _ |- _ => discriminate H
          | H : context [match ?x with _ => _ end] |- _ => destruct x eqn:?
          | H : context [if ?x then _ else _] |- _ => destruct x eqn:?
          end).

Lemma handler_returns {A} (message : string) (d : logDetail) (v : A) (tr : list event) :
  (let* _ := logError message d in ret v) tr
  = ((tr ++ [EvConsoleError message d])%list, Return v).
Proof. reflexivity. Qed.

Lemma tryCatch_throw {A} (m : M A) (handler : thrown -> M A) tr tr' e :
  m tr = (tr', Throw e) -> tryCatch m handler tr = handler e tr'.
Proof. intros H. unfold tryCatch. now rewrite H. Qed.

Lemma tryCatch_return {A} (m : M A) (handler : thrown -> M A) tr tr' a :
  m tr = (tr', Return a) -> tryCatch m handler tr = (tr', Return a).
Proof. intros H. unfold tryCatch. now rewrite H. Qed.

Lemma geocodeWithNominatim_returns (host : Host) (this : Geocoder) (isReverse : bool) tr :
  exists tr' v, geocodeWithNominatim host this isReverse tr = (tr', Return v).
Proof.
  unfold geocodeWithNominatim, tryCatch.
  destruct (nominatimAttempt host this isReverse tr) as [tr' [v|e]].
  - eauto.
  - cbv zeta. rewrite handler_returns. eauto.
Qed.

Lemma geocode_returns (host : Host) (this : Geocoder) (provider : option Provider) tr :
  exists tr' v, geocode host this provider tr = (tr', Return v).
Proof.
  unfold geocode. cbv zeta. unfold tryCatch.
  match goal with
  | |- context [match ?m tr with _ => _ end] => destruct (m tr) as [tr' [v|e]]
  end.
  - eauto.
  - rewrite handler_returns. eauto.
Qed.

Lemma reverseGeocode_returns (host : Host) (this : Geocoder) (provider : option Provider) tr :
  exists tr' v, reverseGeocode host this provider tr = (tr', Return v).
Proof.
  unfold reverseGeocode. cbv zeta. unfold tryCatch.
  match goal with
  | |- context [match ?m tr with _ => _ end] => destruct (m tr) as [tr' [v|e]]
  end.
  - eauto.
  - rewrite handler_returns. eauto.
Qed.

(** C1: for every host, instance and provider argument, [geocode] and
    [reverseGeocode] end by returning a value (a GeocodeResult or a string),
    never by throwing.  Whatever the Google adapter throws becomes the
    returned string "<Direction> Geocoding error with google: <message>",
    whatever is thrown inside the Nominatim adapter becomes the returned
    string "Nominatim <Direction> Geocoding error: <message>", and the
    Nominatim adapter itself never throws. *)
Theorem public_methods_always_return :
  forall (host : Host) (this : Geocoder) (provider : option Provider),
    (exists tr v, run (geocode host this provider) = (tr, Return v)) /\
    (exists tr v, run (reverseGeocode host this provider) = (tr, Return v)) /\
    (forall tr e,
        run (geocodeWithGoogle host this false) = (tr, Throw e) ->
        run (geocode host this (Some google))
        = ((tr ++ [EvConsoleError "Forward Geocoding error with google" (ThrownDetail e)])%list,
           Return (inr ("Forward Geocoding error with google: " ++ errorMessage e)))) /\
    (forall tr e,
        run (geocodeWithGoogle host this true) = (tr, Throw e) ->
        run (reverseGeocode host this (Some google))
        = ((tr ++ [EvConsoleError "Reverse Geocoding error with google" (ThrownDetail e)])%list,
           Return (inr ("Reverse Geocoding error with google: " ++ errorMessage e)))) /\
    (forall tr e,
        run (nominatimAttempt host this false) = (tr, Throw e) ->
        run (geocode host this (Some nominatim))
        = ((tr ++ [EvConsoleError "Nominatim Forward Geocoding error:" (ThrownDetail e)])%list,
           Return (inr ("Nominatim Forward Geocoding error: " ++ errorMessage e)))) /\
    (forall tr e,
        run (nominatimAttempt host this true) = (tr, Throw e) ->
        run (reverseGeocode host this (Some nominatim))
        = ((tr ++ [EvConsoleError "Nominatim Reverse Geocoding error:" (ThrownDetail e)])%list,
           Return (inr ("Nominatim Reverse Geocoding error: " ++ errorMessage e)))) /\
    (forall isReverse,
        exists tr v, run (geocodeWithNominatim host this isReverse) = (tr, Return v)).
Proof.
  intros host this provider.
  split; [apply geocode_returns|].
  split; [apply reverseGeocode_returns|].
  split; [|split; [|split; [|split]]].
  - intros tr e H. unfold run, geocode in *. cbv zeta. simpl default. cbv iota.
    rewrite (tryCatch_throw _ _ _ _ _ H). reflexivity.
  - intros tr e H. unfold run, reverseGeocode in *. cbv zeta. simpl default. cbv iota.
    rewrite (tryCatch_throw _ _ _ _ _ H). reflexivity.
  - intros tr e H. unfold run, geocode in *. cbv zeta. simpl default. cbv iota.
    apply tryCatch_return. unfold geocodeWithNominatim.
    rewrite (tryCatch_throw _ _ _ _ _ H). reflexivity.
  - intros tr e H. unfold run, reverseGeocode in *. cbv zeta. simpl default. cbv iota.
    apply tryCatch_return. unfold geocodeWithNominatim.
    rewrite (tryCatch_throw _ _ _ _ _ H). reflexivity.
  - intros isReverse. apply geocodeWithNominatim_returns.
Qed.

Lemma public_methods_always_return_witness :
  run (geocode (Mock.host Mock.noClient Mock.noNetwork)
         (Mock.atAddress "1600 Pennsylvania Avenue, Washington DC") (Some google))
  = ([EvGoogleGeocode (RequestAddress "1600 Pennsylvania Avenue, Washington DC");
      EvConsoleError "Forward Geocoding error with google"
        (ThrownDetail (ThrownError "Geocoding service unavailable"))],
     Return (inr "Forward Geocoding error with google: Geocoding service unavailable"))
  /\ run (reverseGeocode (Mock.host Mock.noClient Mock.noNetwork)
            (Mock.atLocation Mock.whiteHouse) (Some nominatim))
     = ([EvFetch "https://nominatim.openstreetmap.org/reverse?format=json&lat=38.8976763&lon=-77.0365298";
         EvConsoleError "Nominatim Reverse Geocoding error:"
           (ThrownDetail (ThrownError "Failed to fetch"))],
        Return (inr "Nominatim Reverse Geocoding error: Failed to fetch")).
Proof.
  split.
  - exact (proj1 (proj2 (proj2
             (public_methods_always_return
                (Mock.host Mock.noClient Mock.noNetwork)
                (Mock.atAddress "1600 Pennsylvania Avenue, Washington DC") None)))
             [EvGoogleGeocode (RequestAddress "1600 Pennsylvania Avenue, Washington DC")]
             (ThrownError "Geocoding service unavailable") eq_refl).
  - exact (proj1 (proj2 (proj2 (proj2 (proj2 (proj2
             (public_methods_always_return
                (Mock.host Mock.noClient Mock.noNetwork)
                (Mock.atLocation Mock.whiteHouse) None))))))
             [EvFetch "https://nominatim.openstreetmap.org/reverse?format=json&lat=38.8976763&lon=-77.0365298"]
             (ThrownError "Failed to fetch") eq_refl).
Defined.

(** ** The Nominatim adapter *)

Lemma nominatim_search_empty (host : Host) (this : Geocoder)
    (a : string) (response : Response) (forwardData : Body) :
  this_address this = Some a ->
  JS.truthy a = true ->
  fetch host (searchUrl (JS.removeApostrophes a)) = Return response ->
  ok response = true ->
  json response = Return forwardData ->
  forwardData = BNull \/ forwardData = BArray [] ->
  run (geocodeWithNominatim host this false)
  = ([EvFetch (searchUrl (JS.removeApostrophes a));
      EvConsoleError "Nominatim Forward Geocoding failed: No results found" NoDetail],
     Return (inr "Nominatim Forward Geocoding failed: No results found")).
Proof.
  intros Ha Ht Hf Hok Hj Hfd.
  unfold run, geocodeWithNominatim, nominatimAttempt, tryCatch, bind, fetchUrl, emit,
    liftOutcome.
  rewrite Ha, Ht. evaluate. rewrite Hf. evaluate. rewrite Hok. evaluate. rewrite Hj.
  destruct Hfd as [-> | ->]; reflexivity.
Qed.

(** C9: a forward call through Nominatim (selected explicitly or by
    default) on an instance holding a non-empty address, whose search
    request is answered 2xx with an empty array or with [null], makes that
    one request and returns exactly "Nominatim Forward Geocoding failed: No
    results found". *)
Theorem nominatim_no_results_message :
  forall (host : Host) (this : Geocoder) (provider : option Provider)
         (a : string) (response : Response) (forwardData : Body),
    provider = None \/ provider = Some nominatim ->
    this_address this = Some a ->
    JS.truthy a = true ->
    fetch host (searchUrl (JS.removeApostrophes a)) = Return response ->
    ok response = true ->
    json response = Return forwardData ->
    forwardData = BNull \/ forwardData = BArray [] ->
    run (geocode host this provider)
    = ([EvFetch (searchUrl (JS.removeApostrophes a));
        EvConsoleError "Nominatim Forward Geocoding failed: No results found" NoDetail],
       Return (inr "Nominatim Forward Geocoding failed: No results found")).
Proof.
  intros host this provider a response forwardData Hp Ha Ht Hf Hok Hj Hfd.
  assert (Hd : default nominatim provider = nominatim) by (destruct Hp as [-> | ->]; reflexivity).
  unfold run, geocode. cbv zeta. rewrite Hd.
  apply tryCatch_return.
  exact (nominatim_search_empty host this a response forwardData Ha Ht Hf Hok Hj Hfd).
Qed.

Lemma nominatim_no_results_message_witness :
  run (geocode (Mock.host Mock.noClient (Mock.service (BArray []) BNull))
         (Mock.atAddress "Nowhere Lane 0, Atlantis") None)
  = ([EvFetch "https://nominatim.openstreetmap.org/search?format=json&q=Nowhere%20Lane%200%2C%20Atlantis";
      EvConsoleError "Nominatim Forward Geocoding failed: No results found" NoDetail],
     Return (inr "Nominatim Forward Geocoding failed: No results found")).
Proof.
  exact (nominatim_no_results_message
           (Mock.host Mock.noClient (Mock.service (BArray []) BNull))
           (Mock.atAddress "Nowhere Lane 0, Atlantis") None
           "Nowhere Lane 0, Atlantis" (Mock.okResponse (BArray [])) (BArray [])
           (or_introl eq_refl) eq_refl eq_refl eq_refl eq_refl eq_refl
           (or_intror eq_refl)).
Defined.

Lemma item0_truthy (b : Body) (e : Element) :
  item0 b = Some e -> bodyTruthy b = true /\ lengthIsZero b = false.
Proof. destruct b as [|[|x items]|p]; simpl; intros H; try discriminate; auto. Qed.

(** What a successful run of the [try] block went through. *)
Lemma nominatimAttempt_success (host : Host) (this : Geocoder) (isReverse : bool)
    (tr : list event) (r : GeocodeResult) :
  nominatimAttempt host this isReverse [] = (tr, Return (inl r)) ->
  exists forwardData lat_ long_ reverseResponse reverseData,
    established host this isReverse forwardData lat_ long_ /\
    In (EvFetch (reverseUrl host lat_ long_)) tr /\
    fetch host (reverseUrl host lat_ long_) = Return reverseResponse /\
    ok reverseResponse = true /\
    json reverseResponse = Return reverseData /\
    r = nominatimResult (parseFloatOf host) forwardData reverseData
          (default ∅ (bodyAddress reverseData)).
Proof.
  unfold nominatimAttempt, bind, fetchUrl, emit, liftOutcome, readElement, readAddress,
    ret, throw.
  intros H. destruct isReverse.
  - split_cases.
    all: eexists _, _, _, _, _; split; [econstructor; eassumption|].
    all: repeat split; try eassumption; try reflexivity;
      try (now apply negb_false_iff); simpl; auto.
  - split_cases.
    all: eexists _, _, _, _, _; split;
      [eapply EstablishedHit; try eassumption; now apply negb_false_iff|].
    all: repeat split; try eassumption; try reflexivity;
      try (now apply negb_false_iff); simpl; auto.
Qed.

(** Once the pair is established the reverse endpoint is asked, whatever
    happens next. *)
Lemma established_reverse_lookup (host : Host) (this : Geocoder) (isReverse : bool)
    (forwardData : Body) (lat_ long_ : float) :
  established host this isReverse forwardData lat_ long_ ->
  In (EvFetch (reverseUrl host lat_ long_))
     (fst (run (geocodeWithNominatim host this isReverse))).
Proof.
  intros He.
  unfold run, geocodeWithNominatim, nominatimAttempt, tryCatch, bind, fetchUrl, emit,
    liftOutcome, readElement, readAddress, ret, throw, logError.
  destruct He as [loc Hloc | a response fd e Ha Ht Hf Hok Hj He].
  - rewrite Hloc. evaluate.
    destruct (fetch host (reverseUrl host (lat loc) (long loc))) as [resp|err]; evaluate;
      [|auto].
    destruct (ok resp); evaluate; [|auto].
    destruct (json resp) as [[|items|place]|err]; evaluate; auto.
  - destruct (item0_truthy _ _ He) as [Htruthy Hlen].
    rewrite Ha, Ht. evaluate. rewrite Hf. evaluate. rewrite Hok. evaluate.
    rewrite Hj, Htruthy, Hlen, He. evaluate.
    destruct (fetch host (reverseUrl host (parseFloatOf host (elementGet e "lat"))
                            (parseFloatOf host (elementGet e "lon")))) as [resp|err];
      evaluate; [|auto].
    destruct (ok resp); evaluate; [|auto].
    destruct (json resp) as [[|items|place]|err]; evaluate; auto.
Qed.

Lemma established_forwardData (host : Host) (this : Geocoder) (isReverse : bool)
    (forwardData : Body) (lat_ long_ : float) :
  established host this isReverse forwardData lat_ long_ ->
  bodyTruthy forwardData = negb isReverse.
Proof.
  intros [loc Hloc | a response fd e Ha Ht Hf Hok Hj He]; [reflexivity|].
  now destruct (item0_truthy _ _ He).
Qed.

(** C5: in both directions of the Nominatim adapter, once the coordinate
    pair is established the reverse endpoint is asked for that pair; and in
    every successful result the seven canonical address fields are computed
    from the [address] object of that reverse answer alone, while
    [rawResponse] is the first forward-search element in forward mode and
    the whole reverse answer in reverse mode. *)
Theorem nominatim_fields_from_reverse_lookup :
  forall (host : Host) (this : Geocoder) (isReverse : bool),
    (forall forwardData lat_ long_,
        established host this isReverse forwardData lat_ long_ ->
        In (EvFetch (reverseUrl host lat_ long_))
           (fst (run (geocodeWithNominatim host this isReverse)))) /\
    (forall tr r,
        run (geocodeWithNominatim host this isReverse) = (tr, Return (inl r)) ->
        exists forwardData lat_ long_ reverseResponse reverseData,
          established host this isReverse forwardData lat_ long_ /\
          In (EvFetch (reverseUrl host lat_ long_)) tr /\
          fetch host (reverseUrl host lat_ long_) = Return reverseResponse /\
          json reverseResponse = Return reverseData /\
          let address := default ∅ (bodyAddress reverseData) in
          nation r = JS.or_empty (address !! "country") /\
          province r = JS.or_empty (address !! "state") /\
          county r = removeCountySuffix (JS.or_empty (address !! "county")) /\
          town r = JS.or_empty (JS.or (address !! "town") (address !! "city")) /\
          borough r = JS.or_empty (address !! "borough") /\
          street r = JS.trim (JS.or_empty (address !! "house_number") ++ " "
                              ++ JS.or_empty (address !! "road")) /\
          zip r = JS.or_empty (address !! "postcode") /\
          rawResponse r = if isReverse then RawReverse reverseData
                          else RawItem (item0 forwardData)).
Proof.
  intros host this isReverse. split.
  - apply established_reverse_lookup.
  - intros tr r H. unfold run, geocodeWithNominatim, tryCatch in H.
    destruct (nominatimAttempt host this isReverse []) as [tr' [[r'|msg]|e]] eqn:E;
      try discriminate H.
    injection H as -> ->.
    apply nominatimAttempt_success in E
      as (forwardData & lat_ & long_ & resp & rd & He & Hin & Hf & Hok & Hj & ->).
    exists forwardData, lat_, long_, resp, rd.
    repeat (split; [first [assumption | reflexivity]|]).
    cbv zeta. repeat (split; [reflexivity|]).
    unfold nominatimResult, rawResponse.
    rewrite (established_forwardData _ _ _ _ _ _ He). now destruct isReverse.
Qed.

Lemma nominatim_fields_from_reverse_lookup_witness :
  In (EvFetch (reverseUrl Mock.nominatimHost (lat Mock.whiteHouse) (long Mock.whiteHouse)))
     (fst (run (geocodeWithNominatim Mock.nominatimHost
                  (Mock.atLocation Mock.whiteHouse) true)))
  /\ exists forwardData lat_ long_ reverseResponse reverseData,
      established Mock.nominatimHost
        (Mock.atAddress "1600 Pennsylvania Avenue, Washington DC") false
        forwardData lat_ long_ /\
      In (EvFetch (reverseUrl Mock.nominatimHost lat_ long_))
         [EvFetch "https://nominatim.openstreetmap.org/search?format=json&q=1600%20Pennsylvania%20Avenue%2C%20Washington%20DC";
          EvFetch "https://nominatim.openstreetmap.org/reverse?format=json&lat=38.8976763&lon=-77.0365298"] /\
      fetch Mock.nominatimHost (reverseUrl Mock.nominatimHost lat_ long_)
      = Return reverseResponse /\
      json reverseResponse = Return reverseData /\
      let address := default ∅ (bodyAddress reverseData) in
      let r := Mock.nominatimFields (RawItem (Some (ElemObject Mock.hit))) in
      nation r = JS.or_empty (address !! "country") /\
      province r = JS.or_empty (address !! "state") /\
      county r = removeCountySuffix (JS.or_empty (address !! "county")) /\
      town r = JS.or_empty (JS.or (address !! "town") (address !! "city")) /\
      borough r = JS.or_empty (address !! "borough") /\
      street r = JS.trim (JS.or_empty (address !! "house_number") ++ " "
                          ++ JS.or_empty (address !! "road")) /\
      zip r = JS.or_empty (address !! "postcode") /\
      rawResponse r = RawItem (item0 forwardData).
Proof.
  split.
  - apply (proj1 (nominatim_fields_from_reverse_lookup Mock.nominatimHost
                    (Mock.atLocation Mock.whiteHouse) true) BNull).
    apply (EstablishedInput _ (Mock.atLocation Mock.whiteHouse) Mock.whiteHouse).
    reflexivity.
  - apply (proj2 (nominatim_fields_from_reverse_lookup Mock.nominatimHost
                    (Mock.atAddress "1600 Pennsylvania Avenue, Washington DC") false)
             [EvFetch "https://nominatim.openstreetmap.org/search?format=json&q=1600%20Pennsylvania%20Avenue%2C%20Washington%20DC";
              EvFetch "https://nominatim.openstreetmap.org/reverse?format=json&lat=38.8976763&lon=-77.0365298"]
             (Mock.nominatimFields (RawItem (Some (ElemObject Mock.hit))))).
    vm_compute. reflexivity.
Defined.

(** ** The Google adapter *)

(** A non-OK status, or a [null] result list, ends in the failure string
    that names the direction and the status. *)
Lemma google_failure_message (host : Host) (this : Geocoder) (isReverse : bool)
    (request : GeocoderRequest) (response : GeocodeResponse) :
  requested this isReverse request ->
  googleGeocode host request = Return response ->
  isOK (status response) = false \/ results response = None ->
  run (geocodeWithGoogle host this isReverse)
  = ([EvGoogleGeocode request;
      EvConsoleError ("Google " ++ (if isReverse then "Reverse" else "Forward")
                      ++ " Geocoding failed:") (StatusDetail (status response))],
     Return (inr ("Google " ++ (if isReverse then "Reverse" else "Forward")
                  ++ " Geocoding failed: " ++ statusToString (status response)))).
Proof.
  intros Hreq Hg Hfail.
  unfold run, geocodeWithGoogle, promisifyGeocode, bind, emit, liftOutcome, logError.
  destruct Hreq as [loc Hloc | a Ha Ht].
  - rewrite Hloc. evaluate. rewrite Hg. evaluate.
    destruct Hfail as [-> | ->]; [reflexivity|].
    destruct (isOK (status response)); reflexivity.
  - rewrite Ha, Ht. evaluate. rewrite Hg. evaluate.
    destruct Hfail as [-> | ->]; [reflexivity|].
    destruct (isOK (status response)); reflexivity.
Qed.

Lemma google_failure_message_witness :
  run (geocodeWithGoogle (Mock.host (Mock.answering (Some []) ZERO_RESULTS) Mock.noNetwork)
         (Mock.atLocation Mock.whiteHouse) true)
  = ([EvGoogleGeocode (RequestLocation 38.8976763%float (-77.0365298)%float);
      EvConsoleError "Google Reverse Geocoding failed:" (StatusDetail ZERO_RESULTS)],
     Return (inr "Google Reverse Geocoding failed: ZERO_RESULTS")).
Proof.
  exact (google_failure_message
           (Mock.host (Mock.answering (Some []) ZERO_RESULTS) Mock.noNetwork)
           (Mock.atLocation Mock.whiteHouse) true
           (RequestLocation 38.8976763%float (-77.0365298)%float)
           {| results := Some []; status := ZERO_RESULTS |}
           (RequestedReverse (Mock.atLocation Mock.whiteHouse) Mock.whiteHouse eq_refl)
           eq_refl (or_introl eq_refl)).
Defined.

(** Status OK with an empty result list enters the success branch, whose
    read of [results[0].geometry] throws. *)
Lemma google_ok_empty_throws (host : Host) (this : Geocoder) (isReverse : bool)
    (request : GeocoderRequest) :
  requested this isReverse request ->
  googleGeocode host request = Return {| results := Some []; status := OK |} ->
  run (geocodeWithGoogle host this isReverse)
  = ([EvGoogleGeocode request; EvConsoleLog None],
     Throw (ThrownError (cannotReadMessage host JsUndefined "geometry"))).
Proof.
  intros Hreq Hg.
  unfold run, geocodeWithGoogle, promisifyGeocode, bind, emit, liftOutcome.
  destruct Hreq as [loc Hloc | a Ha Ht].
  - rewrite Hloc. evaluate. rewrite Hg. reflexivity.
  - rewrite Ha, Ht. evaluate. rewrite Hg. reflexivity.
Qed.

(** C2, the code at the failing input: the client answers status OK with
    an empty result list.  [geocodeWithGoogle] throws a TypeError, and
    [geocode] returns a string that names the direction but carries the
    TypeError's text, not the status code. *)
Theorem google_ok_with_empty_results :
  let host := Mock.host (Mock.answering (Some []) OK) Mock.noNetwork in
  let this := Mock.atAddress "1600 Pennsylvania Avenue, Washington DC" in
  run (geocodeWithGoogle host this false)
  = ([EvGoogleGeocode (RequestAddress "1600 Pennsylvania Avenue, Washington DC");
      EvConsoleLog None],
     Throw (ThrownError "Cannot read properties of undefined (reading 'geometry')"))
  /\ run (geocode host this (Some google))
     = ([EvGoogleGeocode (RequestAddress "1600 Pennsylvania Avenue, Washington DC");
         EvConsoleLog None;
         EvConsoleError "Forward Geocoding error with google"
           (ThrownDetail
              (ThrownError "Cannot read properties of undefined (reading 'geometry')"))],
        Return (inr "Forward Geocoding error with google: Cannot read properties of undefined (reading 'geometry')")).
Proof. split; vm_compute; reflexivity. Qed.

(** C7, the code at the failing input: a Google result that has a [route]
    component and no [street_number].  The street keeps the leading space of
    the join; the Nominatim normalizer would have trimmed it. *)
Theorem google_street_keeps_separator :
  let first := Mock.resultWith [Mock.component "Pennsylvania Avenue NW" ["route"]] in
  let host := Mock.host (Mock.answering (Some [first]) OK) Mock.noNetwork in
  run (reverseGeocode host (Mock.atLocation Mock.whiteHouse) (Some google))
  = ([EvGoogleGeocode (RequestLocation 38.8976763%float (-77.0365298)%float);
      EvConsoleLog (Some first)],
     Return (inl (googleResult first)))
  /\ street (googleResult first) = " Pennsylvania Avenue NW"
  /\ JS.trim (street (googleResult first)) = "Pennsylvania Avenue NW".
Proof. repeat split; vm_compute; reflexivity. Qed.

(** C8, the code at the failing input: a Google result with no address
    component at all.  Six canonical fields are the empty string; the
    street is a single space. *)
Theorem google_absent_street_is_space :
  let first := Mock.resultWith [] in
  let host := Mock.host (Mock.answering (Some [first]) OK) Mock.noNetwork in
  run (reverseGeocode host (Mock.atLocation Mock.whiteHouse) (Some google))
  = ([EvGoogleGeocode (RequestLocation 38.8976763%float (-77.0365298)%float);
      EvConsoleLog (Some first)],
     Return (inl {| nation := "";
                    province := "";
                    county := "";
                    town := "";
                    borough := "";
                    street := " ";
                    zip := "";
                    location := Mock.whiteHouse;
                    rawResponse := RawGoogle first |})).
Proof. vm_compute. reflexivity. Qed.

(** Absent raw fields default to the empty string in every canonical field,
    except that the Google street of a result without [street_number] and
    [route] is the bare separator. *)
Lemma absent_fields_default :
  (forall first,
      let components := componentsOf first in
      (components !! "country" = None -> nation (googleResult first) = "") /\
      (components !! "administrative_area_level_1" = None ->
       province (googleResult first) = "") /\
      (components !! "administrative_area_level_2" = None ->
       county (googleResult first) = "") /\
      (components !! "locality" = None -> town (googleResult first) = "") /\
      (components !! "sublocality_level_1" = None -> borough (googleResult first) = "") /\
      (components !! "postal_code" = None -> zip (googleResult first) = "") /\
      (components !! "street_number" = None -> components !! "route" = None ->
       street (googleResult first) = " ")) /\
  (forall parse forwardData reverseData (address : gmap string string),
      let r := nominatimResult parse forwardData reverseData address in
      (address !! "country" = None -> nation r = "") /\
      (address !! "state" = None -> province r = "") /\
      (address !! "county" = None -> county r = "") /\
      (address !! "town" = None -> address !! "city" = None -> town r = "") /\
      (address !! "borough" = None -> borough r = "") /\
      (address !! "postcode" = None -> zip r = "") /\
      (address !! "house_number" = None -> address !! "road" = None -> street r = "")).
Proof.
  split.
  - intros first components. unfold googleResult. fold components. cbn [nation province county town borough zip street].
    repeat split; intros; repeat match goal with H : _ !! _ = None |- _ => rewrite H; clear H end;
      reflexivity.
  - intros parse forwardData reverseData address r. subst r. unfold nominatimResult.
    cbn [nation province county town borough zip street].
    repeat split; intros; repeat match goal with H : _ !! _ = None |- _ => rewrite H; clear H end;
      reflexivity.
Qed.

Lemma absent_fields_default_witness :
  street (nominatimResult (fun _ => nan) BNull BNull ∅) = ""
  /\ nation (googleResult (Mock.resultWith [])) = "".
Proof.
  split.
  - apply (proj2 absent_fields_default (fun _ => nan) BNull BNull ∅); reflexivity.
  - apply (proj1 absent_fields_default (Mock.resultWith [])). reflexivity.
Defined.

(** ** Further properties of the methods *)

(** A scrutinee that contains no other case analysis. *)
Ltac atomic x :=
  lazymatch x with
  | context [match _ with _ => _ end] => fail
  | _ => idtac
  end.

(** Case analysis on everything the run in the goal branches on. *)
Ltac run_cases :=
  repeat (evaluate;
          match goal with
          | |- context [match ?x with _ => _ end] => atomic x; destruct x eqn:?
          | |- context [if ?x then _ else _] => atomic x; destruct x eqn:?
          end).

Ltac unfold_methods :=
  unfold run, geocode, reverseGeocode, geocodeWithGoogle, geocodeWithNominatim,
    nominatimAttempt, promisifyGeocode, fetchUrl, readElement, readAddress, logError,
    tryCatch, bind, emit, liftOutcome, ret, throw.

(** *** The constructor *)

(** A constructed instance holds exactly one of an address and a location,
    and holds it as given: the string verbatim (also the empty one), or the
    pair of the object's [lat] and [long]. *)
Theorem constructor_holds_exactly_its_argument :
  forall (arg : AddressOrLocation) (g : Geocoder),
    new_Geocoder arg = Return g ->
    match arg with
    | OfString s => this_address g = Some s /\ this_location g = None
    | OfObject o =>
        this_address g = None /\
        exists la lo, obj_lat o = Some la /\ obj_long o = Some lo /\
                      this_location g = Some {| lat := la; long := lo |}
    end.
Proof.
  intros [s|o] g H; simpl in H.
  - injection H as <-. split; reflexivity.
  - destruct (obj_lat o) as [la|], (obj_long o) as [lo|]; try discriminate.
    injection H as <-. split; [reflexivity|]. exists la, lo. repeat split.
Qed.

Lemma constructor_holds_exactly_its_argument_witness :
  this_address (Mock.atAddress "Unter den Linden 1, Berlin")
  = Some "Unter den Linden 1, Berlin"
  /\ this_location (Mock.atAddress "Unter den Linden 1, Berlin") = None.
Proof.
  exact (constructor_holds_exactly_its_argument
           (OfString "Unter den Linden 1, Berlin")
           (Mock.atAddress "Unter den Linden 1, Berlin") eq_refl).
Defined.

(** *** The public methods and their adapters *)

(** With the Nominatim provider (chosen or defaulted) the public methods
    return exactly what [geocodeWithNominatim] returns, so their own catch
    block never runs; with the Google provider they pass on whatever
    [geocodeWithGoogle] returns. *)
Theorem public_methods_pass_adapter_results :
  forall (host : Host) (this : Geocoder),
    run (geocode host this None) = run (geocodeWithNominatim host this false) /\
    run (geocode host this (Some nominatim)) = run (geocodeWithNominatim host this false) /\
    run (reverseGeocode host this None) = run (geocodeWithNominatim host this true) /\
    run (reverseGeocode host this (Some nominatim))
    = run (geocodeWithNominatim host this true) /\
    (forall tr v,
        run (geocodeWithGoogle host this false) = (tr, Return v) ->
        run (geocode host this (Some google)) = (tr, Return v)) /\
    (forall tr v,
        run (geocodeWithGoogle host this true) = (tr, Return v) ->
        run (reverseGeocode host this (Some google)) = (tr, Return v)).
Proof.
  intros host this.
  assert (Hn : forall isReverse handler,
             tryCatch (geocodeWithNominatim host this isReverse) handler []
             = geocodeWithNominatim host this isReverse []).
  { intros isReverse handler.
    destruct (geocodeWithNominatim_returns host this isReverse []) as (tr & v & E).
    rewrite E. now apply tryCatch_return. }
  unfold run, geocode, reverseGeocode. cbn [default option_rect from_option].
  repeat split; try apply Hn.
  - intros tr v H. now apply tryCatch_return.
  - intros tr v H. now apply tryCatch_return.
Qed.

Lemma public_methods_pass_adapter_results_witness :
  run (reverseGeocode (Mock.host (Mock.answering None ZERO_RESULTS) Mock.noNetwork)
         (Mock.atLocation Mock.whiteHouse) (Some google))
  = ([EvGoogleGeocode (RequestLocation 38.8976763%float (-77.0365298)%float);
      EvConsoleError "Google Reverse Geocoding failed:" (StatusDetail ZERO_RESULTS)],
     Return (inr "Google Reverse Geocoding failed: ZERO_RESULTS")).
Proof.
  exact (proj2 (proj2 (proj2 (proj2 (proj2
           (public_methods_pass_adapter_results
              (Mock.host (Mock.answering None ZERO_RESULTS) Mock.noNetwork)
              (Mock.atLocation Mock.whiteHouse))))))
           _ _ eq_refl).
Defined.

(** Each provider talks only to its own service: a Google call never
    fetches and sends at most one geocoding request; a Nominatim call
    (chosen or defaulted) never reaches the Google client and fetches at
    most twice. *)
Theorem provider_isolation :
  forall (host : Host) (this : Geocoder) (provider : option Provider) (isReverse : bool),
    let tr := fst (run (if isReverse then reverseGeocode host this provider
                        else geocode host this provider)) in
    match provider with
    | Some google =>
        List.filter isFetch tr = [] /\ (length (List.filter isGoogleRequest tr) <= 1)%nat
    | Some nominatim | None =>
        List.filter isGoogleRequest tr = [] /\ (length (List.filter isFetch tr) <= 2)%nat
    end.
Proof.
  intros host this provider isReverse.
  destruct provider as [[|]|]; destruct isReverse; unfold_methods; run_cases; split; auto.
Qed.

(** A call that returns a result never writes to [console.error]; a call
    that returns a string either did nothing at all and returns one of the
    two mode-mismatch messages, or wrote to [console.error] exactly once,
    as its last action. *)
Theorem failures_are_logged_once :
  forall (host : Host) (this : Geocoder) (provider : option Provider) (isReverse : bool),
    let '(tr, o) := run (if isReverse then reverseGeocode host this provider
                         else geocode host this provider) in
    match o with
    | Return (inl _) => List.filter isConsoleError tr = []
    | Return (inr message) =>
        (tr = [] /\
         (message = "No location coordinates provided for reverse geocoding" \/
          message = "No address provided for forward geocoding")) \/
        (length (List.filter isConsoleError tr) = 1%nat /\
         exists text detail, last tr = Some (EvConsoleError text detail))
    | Throw _ => False
    end.
Proof.
  intros host this provider isReverse.
  destruct provider as [[|]|]; destruct isReverse; unfold_methods; run_cases.
  all: first [ reflexivity
             | left; split; [reflexivity | first [left; reflexivity | right; reflexivity]]
             | right; split; [reflexivity | eexists _, _; reflexivity] ].
Qed.

(** *** The Google adapter, continued *)

Lemma fold_tags_lookup (name : string) (ts : list string) (acc : gmap string string)
    (tag : string) :
  fold_left (fun acc type => <[type := name]> acc) ts acc !! tag
  = if decide (tag ∈ ts) then Some name else acc !! tag.
Proof.
  revert acc. induction ts as [|t ts IH]; intros acc; cbn [fold_left].
  - rewrite decide_False; [reflexivity | apply not_elem_of_nil].
  - rewrite IH. destruct (decide (tag ∈ ts)) as [Hin|Hnin].
    + rewrite decide_True; [reflexivity | now apply list_elem_of_further].
    + destruct (decide (tag = t)) as [->|Hne].
      * rewrite decide_True by apply list_elem_of_here. apply lookup_insert_eq.
      * rewrite decide_False by (rewrite elem_of_cons; tauto).
        apply lookup_insert_ne. congruence.
Qed.

Lemma addComponent_lookup (comp : GeocoderAddressComponent) (acc : gmap string string)
    (tag : string) :
  addComponent acc comp !! tag
  = if decide (tag ∈ types comp) then Some (long_name comp) else acc !! tag.
Proof. apply fold_tags_lookup. Qed.

Lemma fold_components_untagged (comps : list GeocoderAddressComponent)
    (acc : gmap string string) (tag : string) :
  Forall (fun c => tag ∉ types c) comps ->
  fold_left addComponent comps acc !! tag = acc !! tag.
Proof.
  intros H. revert acc.
  induction H as [|c comps Hc _ IH]; intros acc; cbn [fold_left]; [reflexivity|].
  rewrite IH, addComponent_lookup. now rewrite decide_False.
Qed.

(** The folded component table binds a type tag to the long name of the
    last component that carries it (a component may carry several tags),
    and leaves a tag that no component carries unbound. *)
Theorem components_last_tag_wins :
  forall (first : GeocoderResult) (tag : string),
    (Forall (fun c => tag ∉ types c) (address_components first) ->
     componentsOf first !! tag = None) /\
    (forall before c after,
        address_components first = (before ++ c :: after)%list ->
        tag ∈ types c ->
        Forall (fun c' => tag ∉ types c') after ->
        componentsOf first !! tag = Some (long_name c)).
Proof.
  intros first tag. unfold componentsOf. split.
  - intros H. rewrite fold_components_untagged by exact H. apply lookup_empty.
  - intros before c after -> Hin Hafter.
    rewrite fold_left_app. cbn [fold_left].
    rewrite fold_components_untagged by exact Hafter.
    rewrite addComponent_lookup. now rewrite decide_True.
Qed.

Lemma components_last_tag_wins_witness :
  componentsOf Mock.retagged !! "locality" = Some "Washington".
Proof.
  apply (proj2 (components_last_tag_wins Mock.retagged "locality")
           [Mock.component "Georgetown" ["locality"]]
           (Mock.component "Washington" ["locality"; "political"])
           [Mock.component "United States" ["country"; "political"]]).
  - reflexivity.
  - apply list_elem_of_here.
  - repeat constructor. intros H. apply elem_of_cons in H as [H|H]; [discriminate H|].
    apply elem_of_cons in H as [H|H]; [discriminate H|]. now apply not_elem_of_nil in H.
Defined.

(** When the client answers status OK with a non-empty result list, a
    Google call sends that one request, logs the first result, and returns
    the normalisation of the first result alone; further results are
    ignored. *)
Theorem google_success_uses_first_result :
  forall (host : Host) (this : Geocoder) (isReverse : bool)
         (request : GeocoderRequest) (first : GeocoderResult) (rest : list GeocoderResult),
    requested this isReverse request ->
    googleGeocode host request = Return {| results := Some (first :: rest); status := OK |} ->
    run (if isReverse then reverseGeocode host this (Some google)
         else geocode host this (Some google))
    = ([EvGoogleGeocode request; EvConsoleLog (Some first)],
       Return (inl (googleResult first))).
Proof.
  intros host this isReverse request first rest Hreq Hg.
  destruct Hreq as [loc Hloc | a Ha Ht]; unfold_methods.
  - rewrite Hloc. evaluate. rewrite Hg. reflexivity.
  - rewrite Ha, Ht. evaluate. rewrite Hg. reflexivity.
Qed.

Lemma google_success_uses_first_result_witness :
  run (reverseGeocode
         (Mock.host (Mock.answering (Some [Mock.retagged; Mock.otherResult]) OK)
            Mock.noNetwork)
         (Mock.atLocation Mock.whiteHouse) (Some google))
  = ([EvGoogleGeocode (RequestLocation 38.8976763%float (-77.0365298)%float);
      EvConsoleLog (Some Mock.retagged)],
     Return (inl (googleResult Mock.retagged))).
Proof.
  exact (google_success_uses_first_result
           (Mock.host (Mock.answering (Some [Mock.retagged; Mock.otherResult]) OK)
              Mock.noNetwork)
           (Mock.atLocation Mock.whiteHouse) true
           (RequestLocation 38.8976763%float (-77.0365298)%float)
           Mock.retagged [Mock.otherResult]
           (RequestedReverse (Mock.atLocation Mock.whiteHouse) Mock.whiteHouse eq_refl)
           eq_refl).
Defined.

(** *** The Nominatim adapter, continued *)

(** A forward Nominatim call whose search request fails (the fetch
    rejects, the answer is not 2xx, or its body does not parse) makes that
    one request only, logs, and returns "Nominatim Forward Geocoding error: "
    followed by the error's message; for a non-2xx answer the message is
    "Forward geocoding failed: <status>". *)
Theorem nominatim_search_failures :
  forall (host : Host) (this : Geocoder) (a : string),
    this_address this = Some a ->
    JS.truthy a = true ->
    let url := searchUrl (JS.removeApostrophes a) in
    let failed (e : thrown) :=
      run (geocode host this None)
      = ([EvFetch url; EvConsoleError "Nominatim Forward Geocoding error:" (ThrownDetail e)],
         Return (inr ("Nominatim Forward Geocoding error: " ++ errorMessage e))) in
    (forall e, fetch host url = Throw e -> failed e) /\
    (forall response,
        fetch host url = Return response -> ok response = false ->
        failed (ThrownError ("Forward geocoding failed: "
                             ++ JS.integerToString (response_status response)))) /\
    (forall response e,
        fetch host url = Return response -> ok response = true ->
        json response = Throw e -> failed e).
Proof.
  intros host this a Ha Ht url failed. subst url failed. cbv beta.
  repeat split.
  - intros e Hf. unfold_methods. rewrite Ha, Ht. evaluate. rewrite Hf. reflexivity.
  - intros response Hf Hok. unfold_methods. rewrite Ha, Ht. evaluate. rewrite Hf.
    evaluate. rewrite Hok. reflexivity.
  - intros response e Hf Hok Hj. unfold_methods. rewrite Ha, Ht. evaluate. rewrite Hf.
    evaluate. rewrite Hok. evaluate. rewrite Hj. reflexivity.
Qed.

Lemma nominatim_search_failures_witness :
  run (geocode (Mock.host Mock.noClient Mock.unavailable)
         (Mock.atAddress "O'Hare Airport") None)
  = ([EvFetch "https://nominatim.openstreetmap.org/search?format=json&q=OHare%20Airport";
      EvConsoleError "Nominatim Forward Geocoding error:"
        (ThrownDetail (ThrownError "Forward geocoding failed: 503"))],
     Return (inr "Nominatim Forward Geocoding error: Forward geocoding failed: 503")).
Proof.
  exact (proj1 (proj2
           (nominatim_search_failures (Mock.host Mock.noClient Mock.unavailable)
              (Mock.atAddress "O'Hare Airport") "O'Hare Airport" eq_refl eq_refl))
           {| ok := false; response_status := 503; json := Return BNull |}
           eq_refl eq_refl).
Defined.

(** Brings a run of the Nominatim adapter to its reverse request. *)
Ltac to_reverse_stage He :=
  let Htruthy := fresh "Htruthy" in
  let Hlen := fresh "Hlen" in
  destruct He as [loc Hloc | a response fd e Ha Ht Hf Hok Hj He];
  unfold_methods;
  [ rewrite Hloc; evaluate
  | destruct (item0_truthy _ _ He) as [Htruthy Hlen];
    rewrite Ha, Ht; evaluate; rewrite Hf; evaluate; rewrite Hok; evaluate;
    rewrite Hj, Htruthy, Hlen, He; evaluate ].

(** Once the coordinate pair is established, a failing reverse lookup (the
    fetch rejects, the answer is not 2xx, its body does not parse, or its
    body is [null]) ends the call with "Nominatim <Direction> Geocoding
    error: " followed by the error's message, where the direction is the
    one of the method called; for a non-2xx answer the message is "Reverse
    geocoding failed: <status>" in both directions. *)
Theorem nominatim_reverse_stage_failures :
  forall (host : Host) (this : Geocoder) (isReverse : bool)
         (forwardData : Body) (lat_ long_ : float),
    established host this isReverse forwardData lat_ long_ ->
    let url := reverseUrl host lat_ long_ in
    let failed (e : thrown) :=
      snd (run (if isReverse then reverseGeocode host this None
                else geocode host this None))
      = Return (inr ("Nominatim " ++ (if isReverse then "Reverse" else "Forward")
                     ++ " Geocoding error: " ++ errorMessage e)) in
    (forall e, fetch host url = Throw e -> failed e) /\
    (forall response,
        fetch host url = Return response -> ok response = false ->
        failed (ThrownError ("Reverse geocoding failed: "
                             ++ JS.integerToString (response_status response)))) /\
    (forall response e,
        fetch host url = Return response -> ok response = true ->
        json response = Throw e -> failed e) /\
    (forall response,
        fetch host url = Return response -> ok response = true ->
        json response = Return BNull ->
        failed (ThrownError (cannotReadMessage host JsNull "address"))).
Proof.
  intros host this isReverse forwardData lat_ long_ He url failed.
  subst url failed. cbv beta.
  repeat split.
  - intros err Hr. to_reverse_stage He; rewrite Hr; reflexivity.
  - intros resp Hr Hnok. to_reverse_stage He; rewrite Hr; evaluate; rewrite Hnok; reflexivity.
  - intros resp err Hr Hrok Hrj.
    to_reverse_stage He; rewrite Hr; evaluate; rewrite Hrok; evaluate; rewrite Hrj; reflexivity.
  - intros resp Hr Hrok Hrj.
    to_reverse_stage He; rewrite Hr; evaluate; rewrite Hrok; evaluate; rewrite Hrj; reflexivity.
Qed.

Lemma nominatim_reverse_stage_failures_witness :
  snd (run (geocode (Mock.host Mock.noClient (Mock.service (BArray [Mock.hit]) BNull))
              (Mock.atAddress "1600 Pennsylvania Avenue, Washington DC") None))
  = Return (inr "Nominatim Forward Geocoding error: Cannot read properties of null (reading 'address')").
Proof.
  exact (proj2 (proj2 (proj2
           (nominatim_reverse_stage_failures
              (Mock.host Mock.noClient (Mock.service (BArray [Mock.hit]) BNull))
              (Mock.atAddress "1600 Pennsylvania Avenue, Washington DC") false
              (BArray [Mock.hit]) _ _
              (EstablishedHit
                 (Mock.host Mock.noClient (Mock.service (BArray [Mock.hit]) BNull))
                 (Mock.atAddress "1600 Pennsylvania Avenue, Washington DC")
                 "1600 Pennsylvania Avenue, Washington DC"
                 (Mock.okResponse (BArray [Mock.hit])) (BArray [Mock.hit])
                 (ElemObject Mock.hit) eq_refl eq_refl eq_refl eq_refl eq_refl eq_refl))))
           (Mock.okResponse BNull) eq_refl eq_refl eq_refl).
Defined.

(** Once the coordinate pair is established and the reverse lookup is
    answered 2xx with a body that is not [null], the call succeeds: the
    address fields come from that body's [address] object, the returned
    location is parsed from that body's [lat] and [lon] (not taken from the
    input or the search hit), and [rawResponse] is the whole reverse body
    in reverse mode and the first search element in forward mode. *)
Theorem nominatim_success :
  forall (host : Host) (this : Geocoder) (isReverse : bool)
         (forwardData : Body) (lat_ long_ : float)
         (response : Response) (reverseData : Body),
    established host this isReverse forwardData lat_ long_ ->
    fetch host (reverseUrl host lat_ long_) = Return response ->
    ok response = true ->
    json response = Return reverseData ->
    reverseData <> BNull ->
    let r := nominatimResult (parseFloatOf host) forwardData reverseData
               (default ∅ (bodyAddress reverseData)) in
    snd (run (if isReverse then reverseGeocode host this None
              else geocode host this None)) = Return (inl r) /\
    location r = {| lat := parseFloatOf host (bodyGet reverseData "lat");
                    long := parseFloatOf host (bodyGet reverseData "lon") |} /\
    rawResponse r = if isReverse then RawReverse reverseData
                    else RawItem (item0 forwardData).
Proof.
  intros host this isReverse forwardData lat_ long_ resp rd He Hr Hrok Hrj Hnn r.
  assert (Hraw : bodyTruthy forwardData = negb isReverse)
    by exact (established_forwardData _ _ _ _ _ _ He).
  split; [|split].
  - subst r. to_reverse_stage He; rewrite Hr; evaluate; rewrite Hrok; evaluate; rewrite Hrj;
      destruct rd; try contradiction; reflexivity.
  - reflexivity.
  - subst r. unfold nominatimResult, rawResponse. rewrite Hraw. now destruct isReverse.
Qed.

Lemma nominatim_success_witness :
  snd (run (reverseGeocode Mock.nominatimHost (Mock.atLocation Mock.whiteHouse) None))
  = Return (inl (nominatimResult (parseFloatOf Mock.nominatimHost) BNull
                   (BObject Mock.reversePlace) Mock.reverseAddress)).
Proof.
  refine (proj1 (nominatim_success Mock.nominatimHost (Mock.atLocation Mock.whiteHouse)
                   true BNull _ _ (Mock.okResponse (BObject Mock.reversePlace))
                   (BObject Mock.reversePlace)
                   (EstablishedInput _ (Mock.atLocation Mock.whiteHouse) Mock.whiteHouse
                      eq_refl)
                   eq_refl eq_refl eq_refl _)).
  discriminate.
Defined.

(** In a successful Nominatim result the town is the [town] member when
    that is a non-empty string, and otherwise the [city] member (the empty
    string when that is absent or empty too): an empty [town] counts as
    absent. *)
Theorem nominatim_town_prefers_town :
  forall parse forwardData reverseData (address : gmap string string),
    let r := nominatimResult parse forwardData reverseData address in
    (forall t, address !! "town" = Some t -> t <> "" -> town r = t) /\
    (address !! "town" = None \/ address !! "town" = Some "" ->
     town r = JS.or_empty (address !! "city")).
Proof.
  intros parse fd rd address r. subst r. unfold nominatimResult. cbn [town]. split.
  - intros t Ht Hne. rewrite Ht. unfold JS.or, JS.or_empty, JS.truthy.
    destruct (String.eqb_spec t ""); [contradiction|]. simpl.
    destruct (String.eqb_spec t ""); [contradiction|]. reflexivity.
  - intros [-> | ->]; reflexivity.
Qed.

Lemma nominatim_town_prefers_town_witness :
  town (nominatimResult (fun _ => nan) BNull BNull
          (<["town" := ""]> (<["city" := "Washington"]> ∅)))
  = JS.or_empty ((<["town" := ""]> (<["city" := "Washington"]> ∅)
                  : gmap string string) !! "city")
  /\ town (nominatimResult (fun _ => nan) BNull BNull
             (<["town" := "Georgetown"]> (<["city" := "Washington"]> ∅)))
     = "Georgetown".
Proof.
  split.
  - apply (proj2 (nominatim_town_prefers_town (fun _ => nan) BNull BNull
                    (<["town" := ""]> (<["city" := "Washington"]> ∅)))).
    right. reflexivity.
  - apply (proj1 (nominatim_town_prefers_town (fun _ => nan) BNull BNull
                    (<["town" := "Georgetown"]> (<["city" := "Washington"]> ∅)))).
    + reflexivity.
    + discriminate.
Defined.

(** *** White space around the Nominatim street *)

Lemma stripPrefix_spec (p bs rest : list N) :
  JS.stripPrefix p bs = Some rest <-> bs = (p ++ rest)%list.
Proof.
  revert bs. induction p as [|x p IH]; intros bs; simpl.
  - destruct bs; split; intros H; congruence.
  - destruct bs as [|y bs]; [split; intros H; discriminate|].
    destruct (N.eqb_spec x y) as [->|Hne].
    + rewrite IH. split; intros H; congruence.
    + split; intros H; [discriminate | congruence].
Qed.

Lemma stripOne_Some (table : list (list N)) (bs rest : list N) :
  JS.stripOne table bs = Some rest ->
  exists w, In w table /\ bs = (w ++ rest)%list.
Proof.
  induction table as [|w table IH]; simpl; [discriminate|].
  destruct (JS.stripPrefix w bs) as [r|] eqn:E.
  - intros H; injection H as ->. apply stripPrefix_spec in E. eauto.
  - intros H. destruct (IH H) as (w' & Hin & Hw). eauto.
Qed.

Lemma stripOne_None (table : list (list N)) (bs : list N) :
  JS.stripOne table bs = None ->
  forall w rest, In w table -> bs <> (w ++ rest)%list.
Proof.
  induction table as [|w table IH]; simpl; [tauto|].
  destruct (JS.stripPrefix w bs) as [r|] eqn:E; [discriminate|].
  intros H w' rest [<- | Hin] Hbs.
  - apply stripPrefix_spec in Hbs. congruence.
  - exact (IH H w' rest Hin Hbs).
Qed.

(** [stripAll] removes a prefix. *)
Lemma stripAll_suffix (table : list (list N)) (fuel : nat) (bs : list N) :
  exists removed, bs = (removed ++ JS.stripAll fuel table bs)%list.
Proof.
  revert bs. induction fuel as [|fuel IH]; intros bs; simpl.
  - now exists [].
  - destruct (JS.stripOne table bs) as [rest|] eqn:E; [|now exists []].
    apply stripOne_Some in E as (w & _ & ->).
    destruct (IH rest) as (removed & Hr).
    exists (w ++ removed)%list. rewrite <- app_assoc. now rewrite <- Hr.
Qed.

Lemma trimEndBytes_prefix (bs : list N) :
  exists removed, bs = (JS.trimEndBytes bs ++ removed)%list.
Proof.
  unfold JS.trimEndBytes.
  destruct (stripAll_suffix (map (@rev N) JS.whiteSpace) (length bs) (rev bs))
    as (removed & Hr).
  exists (rev removed). rewrite <- rev_app_distr, <- Hr. now rewrite rev_involutive.
Qed.

Lemma bytes_unbytes (bs : list N) :
  Forall (fun n => (n < 256)%N) bs -> JS.bytes (JS.unbytes bs) = bs.
Proof.
  unfold JS.bytes, JS.unbytes. intros H.
  rewrite list_ascii_of_string_of_list_ascii, map_map.
  induction H as [|n bs Hn _ IH]; simpl; [reflexivity|].
  rewrite IH. f_equal. now apply N_ascii_embedding.
Qed.

Lemma bytes_bounded (s : string) : Forall (fun n => (n < 256)%N) (JS.bytes s).
Proof.
  unfold JS.bytes. induction (list_ascii_of_string s) as [|a l IH]; simpl;
    constructor; [apply N_ascii_bounded | exact IH].
Qed.

(** The bytes of [trim s]: what is left of [s] between a removed prefix and
    a removed suffix, with no white space at either end. *)
Lemma trim_bytes (s : string) :
  exists before after,
    JS.bytes s = (before ++ JS.bytes (JS.trim s) ++ after)%list /\
    JS.stripOne JS.whiteSpace (JS.bytes (JS.trim s)) = None /\
    JS.stripOne (map (@rev N) JS.whiteSpace) (rev (JS.bytes (JS.trim s))) = None.
Proof.
  unfold JS.trim.
  destruct (stripAll_suffix JS.whiteSpace (length (JS.bytes s)) (JS.bytes s))
    as (before & Hb).
  fold (JS.trimStartBytes (JS.bytes s)) in Hb.
  destruct (trimEndBytes_prefix (JS.trimStartBytes (JS.bytes s))) as (after & Ha).
  set (t := JS.trimEndBytes (JS.trimStartBytes (JS.bytes s))) in *.
  assert (Hbytes : JS.bytes s = (before ++ t ++ after)%list) by (now rewrite <- Ha).
  assert (Ht : JS.bytes (JS.unbytes t) = t).
  { apply bytes_unbytes. pose proof (bytes_bounded s) as Hall.
    rewrite Hbytes in Hall. apply Forall_app in Hall as [_ Hall].
    now apply Forall_app in Hall as [Hall _]. }
  rewrite Ht. exists before, after. split; [exact Hbytes|]. split.
  - destruct (JS.stripOne JS.whiteSpace t) as [rest|] eqn:E; [|reflexivity].
    apply stripOne_Some in E as (w & Hin & Hw).
    pose proof (trimStartBytes_done (JS.bytes s)) as Hdone.
    exfalso. apply (stripOne_None _ _ Hdone w (rest ++ after)%list Hin).
    rewrite Ha, Hw. now rewrite <- app_assoc.
  - apply trimEndBytes_done.
Qed.

(** The street of every successful Nominatim result neither starts nor
    ends with a white-space character, whatever the [house_number] and
    [road] members hold. *)
Theorem nominatim_street_is_trimmed :
  forall (host : Host) (this : Geocoder) (isReverse : bool)
         (tr : list event) (r : GeocodeResult),
    run (geocodeWithNominatim host this isReverse) = (tr, Return (inl r)) ->
    startsWithWhiteSpace (street r) = false /\ endsWithWhiteSpace (street r) = false.
Proof.
  intros host this isReverse tr r H.
  unfold run, geocodeWithNominatim, tryCatch in H.
  destruct (nominatimAttempt host this isReverse []) as [tr' [[r'|msg]|e]] eqn:E;
    try discriminate H.
  injection H as -> ->.
  apply nominatimAttempt_success in E as (fd & la & lo & resp & rd & _ & _ & _ & _ & _ & ->).
  unfold nominatimResult. cbn [street].
  unfold startsWithWhiteSpace, endsWithWhiteSpace.
  match goal with
  | |- context [JS.trim ?s] => destruct (trim_bytes s) as (before & after & _ & -> & ->)
  end.
  split; reflexivity.
Qed.

Lemma nominatim_street_is_trimmed_witness :
  startsWithWhiteSpace
    (street (Mock.nominatimFields (RawItem (Some (ElemObject Mock.hit))))) = false
  /\ endsWithWhiteSpace
       (street (Mock.nominatimFields (RawItem (Some (ElemObject Mock.hit))))) = false.
Proof.
  apply (nominatim_street_is_trimmed Mock.nominatimHost
           (Mock.atAddress "1600 Pennsylvania Avenue, Washington DC") false
           [EvFetch "https://nominatim.openstreetmap.org/search?format=json&q=1600%20Pennsylvania%20Avenue%2C%20Washington%20DC";
            EvFetch "https://nominatim.openstreetmap.org/reverse?format=json&lat=38.8976763&lon=-77.0365298"]
           (Mock.nominatimFields (RawItem (Some (ElemObject Mock.hit))))).
  vm_compute. reflexivity.
Defined.

(** *** The search URL *)

Lemma removeApostrophes_chars (a : string) :
  chars (JS.removeApostrophes a)
  = List.filter (fun c => negb (Ascii.eqb c "'"%char)) (chars a).
Proof.
  unfold chars. induction a as [|c a IH]; simpl; [reflexivity|].
  destruct (Ascii.eqb c "'"%char); simpl; now rewrite IH.
Qed.

Lemma hexDigit_safe (c : ascii) :
  let hi := JS.hexDigit (N_of_ascii c / 16) in
  let lo := JS.hexDigit (N_of_ascii c mod 16) in
  (JS.uriUnreserved hi = true /\ hi <> "'"%char) /\
  (JS.uriUnreserved lo = true /\ lo <> "'"%char).
Proof.
  destruct c as [[] [] [] [] [] [] [] []]; vm_compute; repeat split; discriminate.
Qed.

(** Every character of an encoded component is [%], or an unreserved
    character that is no apostrophe unless the input had one. *)
Lemma encodeURIComponent_chars (s : string) (c : ascii) :
  In c (chars (JS.encodeURIComponent s)) ->
  c = "%"%char \/
  (JS.uriUnreserved c = true /\ (c <> "'"%char \/ In c (chars s))).
Proof.
  unfold chars. induction s as [|x s IH]; simpl; [tauto|].
  destruct (JS.uriUnreserved x) eqn:Ex; simpl.
  - intros [<- | H]; [right; split; [exact Ex | right; now left]|].
    destruct (IH H) as [-> | [Hu [Hne | Hin]]]; auto.
  - destruct (hexDigit_safe x) as [[Hhi Hhi'] [Hlo Hlo']].
    intros [<- | [<- | [<- | H]]]; auto.
    destruct (IH H) as [-> | [Hu [Hne | Hin]]]; auto.
Qed.

(** The search URL is the fixed endpoint followed by a query value made
    only of [%] and unreserved characters: whatever the address holds, the
    value contains no apostrophe, space, [&], [=], [#], [?], [/] or [+], so
    an address cannot end the [q] parameter or add another one. *)
Theorem search_query_is_url_safe :
  forall (address : string),
    exists q,
      searchUrl (JS.removeApostrophes address)
      = "https://nominatim.openstreetmap.org/search?format=json&q=" ++ q /\
      Forall (fun c => (c = "%"%char \/ JS.uriUnreserved c = true)
                       /\ ~ In c queryDelimiters)
             (chars q).
Proof.
  intros address. eexists. split; [reflexivity|].
  apply Forall_forall. intros c Hc. apply list_elem_of_In in Hc.
  assert (Hsafe : c <> "'"%char /\ (c = "%"%char \/ JS.uriUnreserved c = true)).
  { destruct (encodeURIComponent_chars _ _ Hc) as [-> | [Hu [Hne | Hin]]].
    - split; [discriminate | now left].
    - split; [exact Hne | now right].
    - split; [|now right].
      rewrite removeApostrophes_chars in Hin. apply filter_In in Hin as [_ Hq].
      intros ->. discriminate Hq. }
  destruct Hsafe as [Hne Hsafe]. split; [exact Hsafe|].
  unfold queryDelimiters. simpl. intros Hd.
  repeat (destruct Hd as [<- | Hd]; [first [now apply Hne | destruct Hsafe as [H|H]; discriminate H]|]).
  exact Hd.
Qed.

(** ** Scenarios evaluated on the test doubles *)

Example mock_forward_nominatim :
  run (geocode (Mock.host Mock.noClient (Mock.service (BArray [Mock.hit]) (BObject Mock.reversePlace)))
         (Mock.atAddress "1600 Pennsylvania Avenue, Washington DC") None)
  = ([EvFetch "https://nominatim.openstreetmap.org/search?format=json&q=1600%20Pennsylvania%20Avenue%2C%20Washington%20DC";
      EvFetch "https://nominatim.openstreetmap.org/reverse?format=json&lat=38.8976763&lon=-77.0365298"],
     Return (inl {| nation := "United States";
                    province := "District of Columbia";
                    county := "";
                    town := "Washington";
                    borough := "";
                    street := "1600 Pennsylvania Avenue NW";
                    zip := "20500";
                    location := Mock.whiteHouse;
                    rawResponse := RawItem (Some (ElemObject Mock.hit)) |})).
Proof. vm_compute. reflexivity. Qed.

Example mock_reverse_google :
  let first :=
    Mock.resultWith
      [Mock.component "1600" ["street_number"];
       Mock.component "Pennsylvania Avenue NW" ["route"];
       Mock.component "Washington" ["locality"; "political"];
       Mock.component "Loudoun County" ["administrative_area_level_2"; "political"];
       Mock.component "United States" ["country"; "political"]] in
  snd (run (reverseGeocode (Mock.host (Mock.answering (Some [first]) OK) Mock.noNetwork)
              (Mock.atLocation Mock.whiteHouse) (Some google)))
  = Return (inl {| nation := "United States";
                   province := "";
                   county := "Loudoun";
                   town := "Washington";
                   borough := "";
                   street := "1600 Pennsylvania Avenue NW";
                   zip := "";
                   location := Mock.whiteHouse;
                   rawResponse := RawGoogle first |}).
Proof. vm_compute. reflexivity. Qed.

Example mock_forward_http_error :
  run (geocode (Mock.host Mock.noClient
                  (fun _ => Return {| ok := false; response_status := 503;
                                      json := Return BNull |}))
         (Mock.atAddress "O'Hare Airport") None)
  = ([EvFetch "https://nominatim.openstreetmap.org/search?format=json&q=OHare%20Airport";
      EvConsoleError "Nominatim Forward Geocoding error:"
        (ThrownDetail (ThrownError "Forward geocoding failed: 503"))],
     Return (inr "Nominatim Forward Geocoding error: Forward geocoding failed: 503")).
Proof. vm_compute. reflexivity. Qed.

Example endsWith_suffix : JS.endsWith "Loudoun County" " County" = true.
Proof. reflexivity. Qed.

Example endsWith_too_short : JS.endsWith "County" " County" = false.
Proof. reflexivity. Qed.

Example slice_drops_seven : JS.slice "Loudoun County" 0 (-7) = "Loudoun".
Proof. reflexivity. Qed.

Example trim_spaces : JS.trim "  Main St " = "Main St".
Proof. vm_compute. reflexivity. Qed.

(** A no-break space (U+00A0, bytes C2 A0) is white space too. *)
Example trim_no_break_space :
  JS.trimEndBytes (JS.trimStartBytes [194; 160; 77; 32; 194; 160]%N) = [77]%N.
Proof. vm_compute. reflexivity. Qed.

Example encodeURIComponent_address :
  JS.encodeURIComponent "1600 Penn Ave, DC" = "1600%20Penn%20Ave%2C%20DC".
Proof. vm_compute. reflexivity. Qed.
